(** * Server actions of the admin dashboard ([src/app/lib/actions.ts])

    A shallow embedding of the mutation handlers ([createUser],
    [updateUser], [deleteUser], [createInvoice], [updateInvoice],
    [deleteInvoice]) and of the sign-in handler ([authenticate]),
    together with the parts of the JavaScript run time and of the
    libraries that decide what they do: completions of [try], [catch]
    and [finally], [Number] on form text, binary64 multiplication, the
    checks of the validation schemas and the SQL statements. *)

From Stdlib Require Import ZArith NArith String Ascii List Bool Lia.
From Stdlib Require Import Floats.SpecFloat.
From stdpp Require Import base gmap strings list pretty.

Import ListNotations.
Local Open Scope string_scope.
Local Open Scope list_scope.

(** ** JavaScript numbers

    A JavaScript number is an IEEE 754 binary64 value.  [spec_float] is
    the Standard Library's executable specification of such values;
    rounding is to nearest, ties to even. *)
Module Num.

Definition prec : Z := 53.
Definition emax : Z := 1024.

Abbreviation number := spec_float.

Definition NaN : number := S754_nan.

(** The number denoted by the integer [z]. *)
Definition of_Z (z : Z) : number := binary_normalize prec emax z 0 false.

(** [x * y]. *)
Definition mul (x y : number) : number := SFmul prec emax x y.

(** [x > y]; false as soon as one side is NaN. *)
Definition gt (x y : number) : bool := SFltb y x.

(** The exact value of a finite number, as a fraction. *)
Definition exact (x : number) : option (Z * positive) :=
  match x with
  | S754_zero _ => Some (0%Z, 1%positive)
  | S754_finite s m e =>
      let m' := if s then Z.neg m else Z.pos m in
      match e with
      | Z0 => Some (m', 1%positive)
      | Zpos p => Some ((m' * 2 ^ Z.pos p)%Z, 1%positive)
      | Zneg p => Some (m', (2 ^ p)%positive)
      end
  | _ => None
  end.

(** [is_value x n d]: [x] is finite and its exact value is [n / d]. *)
Definition is_value (x : number) (n : Z) (d : positive) : Prop :=
  match exact x with
  | Some (n', d') => (n' * Z.pos d = n * Z.pos d')%Z
  | None => False
  end.

(** [x] is finite and its exact value is an integer. *)
Definition is_integer (x : number) : bool :=
  match exact x with
  | Some (n, d) => (n mod Z.pos d =? 0)%Z
  | None => false
  end.

(** *** [Number(text)]: the StringNumericLiteral grammar *)

(** WhiteSpace and LineTerminator among the code units below 256: tab
    to carriage return, space and no-break space. *)
Definition is_space (c : ascii) : bool :=
  let n := nat_of_ascii c in
  (n =? 32)%nat || ((9 <=? n)%nat && (n <=? 13)%nat) || (n =? 160)%nat.

Fixpoint skip_spaces (s : string) : string :=
  match s with
  | String c r => if is_space c then skip_spaces r else s
  | EmptyString => EmptyString
  end.

Definition rev_string (s : string) : string :=
  string_of_list_ascii (rev (list_ascii_of_string s)).

Definition trim (s : string) : string :=
  rev_string (skip_spaces (rev_string (skip_spaces s))).

(** The value of a digit in the given radix. *)
Definition digit_of (radix : N) (c : ascii) : option N :=
  let n := N_of_ascii c in
  let v :=
    if ((48 <=? n) && (n <=? 57))%N then Some (n - 48)%N
    else if ((97 <=? n) && (n <=? 102))%N then Some (n - 87)%N
    else if ((65 <=? n) && (n <=? 70))%N then Some (n - 55)%N
    else None in
  match v with
  | Some d => if (d <? radix)%N then Some d else None
  | None => None
  end.

(** The longest prefix of digits: its value read in [radix], how many
    digits it has, and the rest of the text. *)
Fixpoint digits (radix : N) (acc : N) (count : nat) (s : string)
  : N * nat * string :=
  match s with
  | String c r =>
      match digit_of radix c with
      | Some d => digits radix (acc * radix + d)%N (S count) r
      | None => (acc, count, s)
      end
  | EmptyString => (acc, count, s)
  end.

(** SignedInteger of an ExponentPart, to the end of the text. *)
Definition signed_integer (s : string) : option Z :=
  let '(neg, body) :=
    match s with
    | String "-" r => (true, r)
    | String "+" r => (false, r)
    | _ => (false, s)
    end in
  match digits 10 0 0 body with
  | (_, O, _) => None
  | (v, _, EmptyString) => Some (if neg then - Z.of_N v else Z.of_N v)%Z
  | _ => None
  end.

(** ExponentPart_opt, to the end of the text. *)
Definition exponent_part (s : string) : option Z :=
  match s with
  | EmptyString => Some 0%Z
  | String "e" r | String "E" r => signed_integer r
  | _ => None
  end.

(** The number nearest to [m * 10 ^ e10], ties to even. *)
Definition of_decimal (neg : bool) (m : N) (e10 : Z) : number :=
  match m with
  | N0 => S754_zero neg
  | Npos p =>
      match e10 with
      | Zneg k =>
          SFdiv prec emax (S754_finite neg p 0)
                (S754_finite false (10 ^ k) 0)
      | Z0 => binary_round prec emax neg p 0
      | Zpos k => binary_round prec emax neg (p * 10 ^ k) 0
      end
  end.

(** StrUnsignedDecimalLiteral. *)
Definition unsigned_decimal (neg : bool) (s : string) : number :=
  if String.eqb s "Infinity" then S754_infinity neg
  else
    let '(ip, ni, r1) := digits 10 0 0 s in
    match r1 with
    | String "." r2 =>
        let '(m, nall, r3) := digits 10 ip ni r2 in
        match nall with
        | O => NaN
        | _ =>
            match exponent_part r3 with
            | Some e => of_decimal neg m (e - Z.of_nat (nall - ni))
            | None => NaN
            end
        end
    | _ =>
        match ni with
        | O => NaN
        | _ =>
            match exponent_part r1 with
            | Some e => of_decimal neg ip e
            | None => NaN
            end
        end
    end.

(** NonDecimalIntegerLiteral: the digits after [0x], [0o] or [0b]. *)
Definition non_decimal (radix : N) (s : string) : number :=
  match digits radix 0 0 s with
  | (_, O, _) => NaN
  | (v, _, EmptyString) => of_Z (Z.of_N v)
  | _ => NaN
  end.

(** [Number(text)]. *)
Definition of_string (text : string) : number :=
  match trim text with
  | EmptyString => S754_zero false
  | String "0" (String "x" r) | String "0" (String "X" r) => non_decimal 16 r
  | String "0" (String "o" r) | String "0" (String "O" r) => non_decimal 8 r
  | String "0" (String "b" r) | String "0" (String "B" r) => non_decimal 2 r
  | String "-" r => unsigned_decimal true r
  | String "+" r => unsigned_decimal false r
  | s => unsigned_decimal false s
  end.

End Num.

(** ** Form data

    An entry of a form is a text or a file.  A text is the sequence of
    its code units, each below 256, so that [String.length] is the
    [length] of the JavaScript string.  [formData.get(name)] is the
    first entry of that name, or [null]. *)
Inductive FormDataEntryValue : Type :=
| Text (s : string)
| File (name : string).

Definition FormData : Type := list (string * FormDataEntryValue).

Fixpoint get (formData : FormData) (name : string) : option FormDataEntryValue :=
  match formData with
  | [] => None
  | (k, v) :: rest => if String.eqb k name then Some v else get rest name
  end.

(** ** The validation library

    Schemas are parsers of raw values; a raw value here is what
    [formData.get] gives, [None] standing for [null].  A field parser
    answers with the typed value or with the messages of its issues. *)
Module Zod.

Definition raw : Type := option FormDataEntryValue.

Definition schema (A : Type) : Type := raw -> A + list string.

(** A check of a string schema: the message of its issue, if any. *)
Definition check : Type := string -> option string.

Definition min (n : nat) (message : string) : check :=
  fun s => if (String.length s <? n)%nat then Some message else None.

Definition nonempty (message : string) : check := min 1 message.

Definition email (grammar : string -> bool) (message : string) : check :=
  fun s => if grammar s then None else Some message.

(** What the library calls the type of a raw value it rejects. *)
Definition received (v : raw) : string :=
  match v with
  | None => "null"
  | Some (Text _) => "string"
  | Some (File _) => "object"
  end.

(** [z.string(...)] followed by checks.  A value of the wrong type
    yields one issue and no check runs; otherwise every check runs
    and every failing check yields its issue. *)
Definition string_ (invalid_type_error : option string) (checks : list check)
  : schema string :=
  fun v =>
    match v with
    | Some (Text s) =>
        match omap (fun c : check => c s) checks with
        | [] => inl s
        | messages => inr messages
        end
    | _ =>
        inr [default ("Expected string, received " +:+ received v)
                     invalid_type_error]
    end.

(** [z.enum(values, { invalid_type_error })]. *)
Definition enum (values : list string) (invalid_type_error : string)
  : schema string :=
  fun v =>
    match v with
    | Some (Text s) =>
        if existsb (String.eqb s) values then inl s
        else inr ["Invalid enum value. Expected "
                    +:+ String.concat " | "
                          (map (fun x => "'" +:+ x +:+ "'") values)
                    +:+ ", received '" +:+ s +:+ "'"]
    | _ => inr [invalid_type_error]
    end.

(** [Number(v)] for a raw value. *)
Definition Number (v : raw) : Num.number :=
  match v with
  | None => S754_zero false
  | Some (Text s) => Num.of_string s
  | Some (File _) => Num.NaN
  end.

(** [z.coerce.number().gt(bound, { message })]. *)
Definition coerce_number_gt (bound : Num.number) (message : string)
  : schema Num.number :=
  fun v =>
    let n := Number v in
    match n with
    | S754_nan => inr ["Expected number, received nan"]
    | _ => if Num.gt n bound then inl n else inr [message]
    end.

(** An issue of an object schema: the key it is under, its message. *)
Definition issue : Type := string * string.

Definition issues_at {A} (key : string) (r : A + list string) : list issue :=
  match r with
  | inl _ => []
  | inr messages => map (pair key) messages
  end.

(** The result of [safeParse]. *)
Inductive SafeParse (A : Type) : Type :=
| Success (data : A)
| Failure (error : list issue).
Arguments Success {A} data.
Arguments Failure {A} error.

(** An object schema of three keys, parsed in the order of the keys;
    the issues of all keys are collected. *)
Definition object3 {A B C T} (k1 : string) (s1 : schema A)
    (k2 : string) (s2 : schema B) (k3 : string) (s3 : schema C)
    (mk : A -> B -> C -> T) (v1 v2 v3 : raw) : SafeParse T :=
  match s1 v1, s2 v2, s3 v3 with
  | inl a, inl b, inl c => Success (mk a b c)
  | r1, r2, r3 =>
      Failure (issues_at k1 r1 ++ issues_at k2 r2 ++ issues_at k3 r3)
  end.

(** [error.flatten().fieldErrors]: the messages grouped by key. *)
Definition fieldErrors (error : list issue) : gmap string (list string) :=
  fold_left
    (fun (m : gmap string (list string)) (i : issue) =>
       <[ i.1 := default [] (m !! i.1) ++ [i.2] ]> m)
    error ∅.

End Zod.

(** ** Thrown values *)
Inductive exn : Type :=
| Error (message : string)          (* [new Error(message)] *)
| DatabaseError (message : string)  (* a statement rejected by the store *)
| AuthError (type : string)         (* the sign-in provider's error class *)
| NEXT_REDIRECT (url : string).     (* what [redirect(url)] throws *)

(** ** The record store and the rest of the world *)
Record user_row : Type := mk_user {
  user_id : string;
  user_name : string;
  user_email : string;
  user_password : string
}.

Record invoice_row : Type := mk_invoice {
  invoice_id : string;
  invoice_customer_id : string;
  invoice_amount : Num.number;
  invoice_status : string;
  invoice_date : string
}.

(** What a console call is given. *)
Inductive printed : Type :=
| PText (s : string)
| PError (e : exn)
| PUser (id name email : string).

Inductive console_call : Type :=
| console_log (args : list printed)
| console_error (args : list printed).

Record world : Type := mk_world {
  (** tables [users] and [invoices], in insertion order *)
  users : list user_row;
  invoices : list invoice_row;
  (** how many rows the store has given an id to *)
  next_id : nat;
  (** what the store does with the statements to come, one entry per
      statement: [Some message] rejects it with that message; past the
      end of the list every statement is accepted *)
  store_faults : list (option string);
  (** how many salts have been drawn *)
  entropy : nat;
  (** [new Date().toISOString()] *)
  clock : string;
  (** the paths given to [revalidatePath], oldest first *)
  revalidated : list string;
  (** the console calls, oldest first *)
  console : list console_call
}.

Definition with_users (f : list user_row -> list user_row) (w : world) : world :=
  mk_world (f (users w)) (invoices w) (next_id w) (store_faults w)
           (entropy w) (clock w) (revalidated w) (console w).

Definition with_invoices (f : list invoice_row -> list invoice_row) (w : world)
  : world :=
  mk_world (users w) (f (invoices w)) (next_id w) (store_faults w)
           (entropy w) (clock w) (revalidated w) (console w).

Definition with_next_id (n : nat) (w : world) : world :=
  mk_world (users w) (invoices w) n (store_faults w)
           (entropy w) (clock w) (revalidated w) (console w).

Definition with_store_faults (fs : list (option string)) (w : world) : world :=
  mk_world (users w) (invoices w) (next_id w) fs
           (entropy w) (clock w) (revalidated w) (console w).

Definition with_entropy (n : nat) (w : world) : world :=
  mk_world (users w) (invoices w) (next_id w) (store_faults w)
           n (clock w) (revalidated w) (console w).

Definition with_revalidated (ps : list string) (w : world) : world :=
  mk_world (users w) (invoices w) (next_id w) (store_faults w)
           (entropy w) (clock w) ps (console w).

Definition with_console (cs : list console_call) (w : world) : world :=
  mk_world (users w) (invoices w) (next_id w) (store_faults w)
           (entropy w) (clock w) (revalidated w) cs.

(** ** Completions

    A block of statements of a function returning [R] completes
    normally (with a value [A] when it is an expression), by [return],
    or by [throw]; effects on the world stay whichever way it ends. *)
Inductive completion (R A : Type) : Type :=
| Normal (a : A)
| Return (r : R)
| Throw (e : exn).
Arguments Normal {R A} a.
Arguments Return {R A} r.
Arguments Throw {R A} e.

Definition block (R A : Type) : Type := world -> completion R A * world.

Definition ret {R A} (a : A) : block R A := fun w => (Normal a, w).

Definition bind {R A B} (m : block R A) (k : A -> block R B) : block R B :=
  fun w =>
    match m w with
    | (Normal a, w') => k a w'
    | (Return r, w') => (Return r, w')
    | (Throw e, w') => (Throw e, w')
    end.

Definition return_ {R A} (r : R) : block R A := fun w => (Return r, w).

Definition throw {R A} (e : exn) : block R A := fun w => (Throw e, w).

Declare Scope js_scope.
Delimit Scope js_scope with js.
Notation "x <- m ;; k" := (bind m (fun x => k))
  (at level 100, m at next level, right associativity) : js_scope.
Notation "m ;; k" := (bind m (fun _ => k))
  (at level 100, right associativity) : js_scope.

(** [try { body } catch (error) { handler error }] *)
Definition try_catch {R} (body : block R unit) (handler : exn -> block R unit)
  : block R unit :=
  fun w =>
    match body w with
    | (Throw e, w') => handler e w'
    | done => done
    end.

(** [try { body } catch (error) { handler error } finally { finalizer }]:
    the finalizer runs whichever way the rest completed, and when it
    completes by [return] or [throw] itself, that completion replaces
    the pending one. *)
Definition try_catch_finally {R} (body : block R unit)
    (handler : exn -> block R unit) (finalizer : block R unit) : block R unit :=
  fun w =>
    let '(pending, w1) := try_catch body handler w in
    match finalizer w1 with
    | (Normal _, w2) => (pending, w2)
    | abrupt => abrupt
    end.

(** How a call of an async function ends: the promise is fulfilled with
    a value or rejected with the thrown value. *)
Inductive outcome (A : Type) : Type :=
| Returned (a : A)
| Thrown (e : exn).
Arguments Returned {A} a.
Arguments Thrown {A} e.

Definition async (A : Type) : Type := world -> outcome A * world.

(** A function whose body may run off its end: the result is then
    [undefined], here [None]. *)
Definition async_function {R} (body : block R unit) : async (option R) :=
  fun w =>
    match body w with
    | (Normal _, w') => (Returned None, w')
    | (Return r, w') => (Returned (Some r), w')
    | (Throw e, w') => (Thrown e, w')
    end.

(** A function whose body always ends in [return] or [throw]. *)
Definition async_function_total {R} (body : block R Empty_set) : async R :=
  fun w =>
    match body w with
    | (Normal a, _) => match a with end
    | (Return r, w') => (Returned r, w')
    | (Throw e, w') => (Thrown e, w')
    end.

(** [await f(...)] *)
Definition await {R A} (call : async A) : block R A :=
  fun w =>
    match call w with
    | (Returned a, w') => (Normal a, w')
    | (Thrown e, w') => (Throw e, w')
    end.

(** ** Framework calls *)

Definition console_print {R} (c : console_call) : block R unit :=
  fun w => (Normal tt, with_console (console w ++ [c]) w).

Definition revalidatePath {R} (path : string) : block R unit :=
  fun w => (Normal tt, with_revalidated (revalidated w ++ [path]) w).

(** [redirect(url)] never returns: it throws the framework's redirect. *)
Definition redirect {R A} (url : string) : block R A :=
  throw (NEXT_REDIRECT url).

(** [new Date().toISOString().split('T')[0]] *)
Fixpoint before_T (s : string) : string :=
  match s with
  | EmptyString => EmptyString
  | String c r => if Ascii.eqb c "T" then EmptyString else String c (before_T r)
  end.

Definition today (w : world) : string := before_T (clock w).

(** ** SQL statements

    A statement takes the next entry of the fault schedule: it is
    rejected, or it runs on the tables. *)
Definition sql {A} (statement : world -> A * world) : async A :=
  fun w =>
    match store_faults w with
    | Some message :: rest =>
        (Thrown (DatabaseError message), with_store_faults rest w)
    | None :: rest =>
        let '(a, w') := statement (with_store_faults rest w) in (Returned a, w')
    | [] => let '(a, w') := statement w in (Returned a, w')
    end.

(** The id the store gives to a new row. *)
Definition fresh_id (w : world) : string := pretty (next_id w).

(** [SELECT COUNT( * ) AS count FROM users WHERE email = $1] *)
Definition count_users_by_email (email : string) (w : world) : nat * world :=
  (length (filter (fun u => user_email u = email) (users w)), w).

(** [INSERT INTO users (name, email, password) VALUES ($1, $2, $3)
    RETURNING id, name, email]; the row returned is what the caller
    prints. *)
Definition insert_user (name email password : string) (w : world)
  : printed * world :=
  let id := fresh_id w in
  (PUser id name email,
   with_next_id (S (next_id w))
     (with_users (fun us => us ++ [mk_user id name email password]) w)).

(** [SELECT * FROM users WHERE id = $1] *)
Definition select_users_by_id (id : string) (w : world)
  : list user_row * world :=
  (filter (fun u => user_id u = id) (users w), w).

(** [UPDATE users SET name = $1, email = $2, password = $3 WHERE id = $4] *)
Definition update_user (name email password id : string) (w : world)
  : unit * world :=
  (tt,
   with_users
     (map (fun u => if decide (user_id u = id)
                    then mk_user id name email password else u)) w).

(** [DELETE FROM users WHERE id = $1] *)
Definition delete_user (id : string) (w : world) : unit * world :=
  (tt, with_users (filter (fun u => user_id u <> id)) w).

(** [INSERT INTO invoices (customer_id, amount, status, date)
    VALUES ($1, $2, $3, $4)] *)
Definition insert_invoice (customerId : string) (amount : Num.number)
    (status date : string) (w : world) : unit * world :=
  (tt,
   with_next_id (S (next_id w))
     (with_invoices
        (fun rows =>
           rows ++ [mk_invoice (fresh_id w) customerId amount status date]) w)).

(** [UPDATE invoices SET customer_id = $1, amount = $2, status = $3
    WHERE id = $4] *)
Definition update_invoice (customerId : string) (amount : Num.number)
    (status id : string) (w : world) : unit * world :=
  (tt,
   with_invoices
     (map (fun r => if decide (invoice_id r = id)
                    then mk_invoice id customerId amount status (invoice_date r)
                    else r)) w).

(** [DELETE FROM invoices WHERE id = $1] *)
Definition delete_invoice (id : string) (w : world) : unit * world :=
  (tt, with_invoices (filter (fun r => invoice_id r <> id)) w).

(** ** What the handlers take from outside the repository *)
Record externals : Type := mk_externals {
  (** the validation library's pattern for e-mail addresses *)
  email_grammar : string -> bool;
  (** [bcrypt.hash]: the text, the cost factor and the salt drawn *)
  bcrypt : string -> nat -> nat -> string;
  (** [signIn] of the authentication framework *)
  signIn : string -> FormData -> async unit
}.

(** Stand-ins for running the handlers on examples. *)
Fixpoint demo_has_at (s : string) : bool :=
  match s with
  | EmptyString => false
  | String c r => Ascii.eqb c "@" || demo_has_at r
  end.

Definition demo_bcrypt (data : string) (rounds salt : nat) : string :=
  "$2b$" +:+ pretty rounds +:+ "$" +:+ pretty salt +:+ "$"
         +:+ Num.rev_string data.

Definition demo_signIn (provider : string) (formData : FormData) : async unit :=
  fun w =>
    match get formData "password" with
    | Some (Text "123456") => (Returned tt, w)
    | Some (Text _) => (Thrown (AuthError "CredentialsSignin"), w)
    | Some (File _) => (Thrown (AuthError "CallbackRouteError"), w)
    | None => (Thrown (Error "fetch failed"), w)
    end.

Definition demo : externals := mk_externals demo_has_at demo_bcrypt demo_signIn.

Definition empty_world : world := mk_world [] [] 0 [] 0 "" [] [].

(** A store with one user and one invoice, and the same store when
    its next statement is rejected. *)
Definition sample_world : world :=
  mk_world [mk_user "u1" "Alice Doe" "alice@example.com" "$2b$10$0$terces"]
           [mk_invoice "i1" "c1" (Num.of_Z 5000) "paid" "2024-04-30"]
           2 [] 1 "2024-05-01T10:00:00.000Z" [] [].

Definition failing_world : world :=
  with_store_faults [Some "connection refused"] sample_world.

Definition user_form (name email password : string) : FormData :=
  [("name", Text name); ("email", Text email); ("password", Text password)].

Definition invoice_form (customerId amount status : string) : FormData :=
  [("customerId", Text customerId); ("amount", Text amount);
   ("status", Text status)].

(** ** The handlers *)

(** The result shape the form handlers return: [errors] and [message],
    both optional.  [StateUser] and [State] differ in the keys only. *)
Record State : Type := mk_State {
  errors : option (gmap string (list string));
  message : option string
}.

Definition StateUser : Type := State.

(** The data of a validated user form and of a validated invoice form. *)
Record UserData : Type := mk_UserData {
  name : string;
  email : string;
  password : string
}.

Record InvoiceData : Type := mk_InvoiceData {
  customerId : string;
  amount : Num.number;
  status : string
}.

Definition log {R} (text : string) : block R unit :=
  console_print (console_log [PText text]).

Section Handlers.

Variable ext : externals.

Local Open Scope js_scope.

(** [userSchema], key by key; [id] is omitted by [CreateUser] and
    [UpdateUser]. *)
Definition userSchema_id : Zod.schema string := Zod.string_ None [].

Definition userSchema_name : Zod.schema string :=
  Zod.string_ None
    [Zod.min 5 "Name must be at least 5 characters long";
     Zod.nonempty "Name cannot be empty"].

Definition userSchema_email : Zod.schema string :=
  Zod.string_ None
    [Zod.email (email_grammar ext) "Invalid email address";
     Zod.nonempty "Email cannot be empty"].

Definition userSchema_password : Zod.schema string :=
  Zod.string_ None
    [Zod.min 6 "Password must be at least 6 characters long";
     Zod.nonempty "Password cannot be empty"].

Definition CreateUser : Zod.raw -> Zod.raw -> Zod.raw -> Zod.SafeParse UserData :=
  Zod.object3 "name" userSchema_name "email" userSchema_email
              "password" userSchema_password mk_UserData.

Definition UpdateUser : Zod.raw -> Zod.raw -> Zod.raw -> Zod.SafeParse UserData :=
  Zod.object3 "name" userSchema_name "email" userSchema_email
              "password" userSchema_password mk_UserData.

(** The count is a number, as the signature [Promise<number>] has it:
    [count > 0] and [!count] below are read on a number. *)
Definition isEmailUnique (email : string) : async nat :=
  async_function_total
    (count <- await (sql (count_users_by_email email)) ;;
     log ("Email count: " +:+ pretty count) ;;
     return_ count).

(** [bcrypt.hash(data, rounds)] draws a salt of its own. *)
Definition bcrypt_hash (data : string) (rounds : nat) : async string :=
  fun w =>
    (Returned (bcrypt ext data rounds (entropy w)),
     with_entropy (S (entropy w)) w).

Definition createUser (prevState : StateUser) (formData : FormData)
  : async (option StateUser) :=
  async_function
    (log "Validation Fields..." ;;
     match CreateUser (get formData "name") (get formData "email")
                      (get formData "password") with
     | Zod.Failure error =>
         return_ (mk_State (Some (Zod.fieldErrors error))
                           (Some "Missing Fields. Failed to Create User."))
     | Zod.Success data =>
         log "Prepare data for insertion into the database" ;;
         try_catch
           (log "Checking if email is unique..." ;;
            emailCount <- await (isEmailUnique (email data)) ;;
            (if (0 <? emailCount)%nat
             then throw (Error "Email already exists")
             else ret tt) ;;
            log "Hashing password..." ;;
            hashedPassword <- await (bcrypt_hash (password data) 10) ;;
            log "Inserting new user into database..." ;;
            newUser <- await (sql (insert_user (name data) (email data)
                                               hashedPassword)) ;;
            console_print
              (console_log [PText "User created successfully:"; newUser]))
           (fun error =>
              console_print
                (console_error [PText "Failed to create user:"; PError error]) ;;
              throw (Error "Failed to create user.")) ;;
         revalidatePath "/dashboard/users" ;;
         redirect "/dashboard/users"
     end).

Definition updateUser (id : string) (prevState : StateUser)
    (formData : FormData) : async (option StateUser) :=
  async_function
    (match UpdateUser (get formData "name") (get formData "email")
                      (get formData "password") with
     | Zod.Failure error =>
         return_ (mk_State (Some (Zod.fieldErrors error))
                           (Some "Missing Fields. Failed to Update Invoice."))
     | Zod.Success data =>
         try_catch_finally
           (existingUser <- await (sql (select_users_by_id id)) ;;
            match existingUser with
            | [] => throw (Error "User not found")
            | row0 :: _ =>
                taken <-
                  (if negb (String.eqb (email data) (user_email row0))
                   then count <- await (isEmailUnique (email data)) ;;
                        ret (count =? 0)%nat
                   else ret false) ;;
                (if taken : bool
                 then throw (Error "Email already exists")
                 else ret tt) ;;
                hashedPassword <- await (bcrypt_hash (password data) 10) ;;
                await (sql (update_user (name data) (email data)
                                        hashedPassword id))
            end)
           (fun error =>
              console_print
                (console_error [PText "Failed to update user:"; PError error]) ;;
              throw (Error "Failed to update user."))
           (revalidatePath "/dashboard/users" ;;
            redirect "/dashboard/users")
     end).

Definition deleteUser (id : string) : async (option State) :=
  async_function
    (try_catch
       (await (sql (delete_user id)) ;;
        revalidatePath "/dashboard/users" ;;
        return_ (mk_State None (Some "Deleted User.")))
       (fun error =>
          console_print
            (console_error [PText "Failed to delete user:"; PError error]) ;;
          throw (Error "Failed to delete user."))).

(** [FormSchema], key by key; [id] and [date] are omitted by
    [CreateInvoice] and [UpdateInvoice]. *)
Definition FormSchema_id : Zod.schema string := Zod.string_ None [].

Definition FormSchema_customerId : Zod.schema string :=
  Zod.string_ (Some "Please select a customer.") [].

Definition FormSchema_amount : Zod.schema Num.number :=
  Zod.coerce_number_gt (Num.of_Z 0) "Please enter an amount greater than $0.".

Definition FormSchema_status : Zod.schema string :=
  Zod.enum ["pending"; "paid"] "Please select an invoice status.".

Definition FormSchema_date : Zod.schema string := Zod.string_ None [].

Definition CreateInvoice
  : Zod.raw -> Zod.raw -> Zod.raw -> Zod.SafeParse InvoiceData :=
  Zod.object3 "customerId" FormSchema_customerId "amount" FormSchema_amount
              "status" FormSchema_status mk_InvoiceData.

Definition UpdateInvoice
  : Zod.raw -> Zod.raw -> Zod.raw -> Zod.SafeParse InvoiceData :=
  Zod.object3 "customerId" FormSchema_customerId "amount" FormSchema_amount
              "status" FormSchema_status mk_InvoiceData.

Definition createInvoice (prevState : State) (formData : FormData)
  : async (option State) :=
  async_function
    (match CreateInvoice (get formData "customerId") (get formData "amount")
                         (get formData "status") with
     | Zod.Failure error =>
         return_ (mk_State (Some (Zod.fieldErrors error))
                           (Some "Missing Fields. Failed to Create Invoice."))
     | Zod.Success data =>
         let amountInCents := Num.mul (amount data) (Num.of_Z 100) in
         date <- (fun w => (Normal (today w), w)) ;;
         try_catch
           (await (sql (insert_invoice (customerId data) amountInCents
                                       (status data) date)))
           (fun error =>
              return_ (mk_State None
                         (Some "Database Error: Failed to Create Invoice."))) ;;
         revalidatePath "/dashboard/invoices" ;;
         redirect "/dashboard/invoices"
     end).

Definition updateInvoice (id : string) (prevState : State)
    (formData : FormData) : async (option State) :=
  async_function
    (match UpdateInvoice (get formData "customerId") (get formData "amount")
                         (get formData "status") with
     | Zod.Failure error =>
         return_ (mk_State (Some (Zod.fieldErrors error))
                           (Some "Missing Fields. Failed to Update Invoice."))
     | Zod.Success data =>
         let amountInCents := Num.mul (amount data) (Num.of_Z 100) in
         try_catch
           (await (sql (update_invoice (customerId data) amountInCents
                                       (status data) id)))
           (fun error =>
              return_ (mk_State None
                         (Some "Database Error: Failed to Update Invoice."))) ;;
         revalidatePath "/dashboard/invoices" ;;
         redirect "/dashboard/invoices"
     end).

Definition deleteInvoice (id : string) : async (option State) :=
  async_function
    (try_catch
       (await (sql (delete_invoice id)) ;;
        revalidatePath "/dashboard/invoices" ;;
        return_ (mk_State None (Some "Deleted Invoice.")))
       (fun error =>
          return_ (mk_State None
                     (Some "Database Error: Failed to Delete Invoice.")))).

Definition authenticate (prevState : option string) (formData : FormData)
  : async (option string) :=
  async_function
    (try_catch
       (await (signIn ext "credentials" formData))
       (fun error =>
          match error with
          | AuthError type =>
              if String.eqb type "CredentialsSignin"
              then return_ "Invalid credentials."
              else return_ "Something went wrong."
          | _ => throw error
          end)).

End Handlers.

(** ** Vocabulary of the properties *)

(** The store rejects the [n]-th statement to come (counted from 0). *)
Definition rejected (n : nat) (w : world) : Prop :=
  exists message, store_faults w !! n = Some (Some message).

(** The store accepts the [n]-th statement to come. *)
Definition accepted (n : nat) (w : world) : Prop :=
  forall message, store_faults w !! n <> Some (Some message).

(** How many rows of [users] carry the e-mail address. *)
Definition email_count (email : string) (w : world) : nat :=
  (count_users_by_email email w).1.

Definition no_user (id : string) (w : world) : Prop :=
  Forall (fun u => user_id u <> id) (users w).

Definition no_invoice (id : string) (w : world) : Prop :=
  Forall (fun r => invoice_id r <> id) (invoices w).

Definition a_state : State := mk_State None None.

(** The messages under a key among a list of issues. *)
Definition messages_at (key : string) (error : list Zod.issue) : list string :=
  (filter (fun i : Zod.issue => i.1 = key) error).*2.

(** The messages of a field result; none when the field is valid. *)
Definition messages_of {A} (r : A + list string) : list string :=
  match r with
  | inl _ => []
  | inr messages => messages
  end.

(** The constraints on the fields of a user, in the words of the data
    model: a name of at least 5 characters and not empty, an e-mail
    address that is valid and not empty, a password of at least 6
    characters and not empty; each given as text. *)
Definition name_ok (v : Zod.raw) : bool :=
  match v with
  | Some (Text s) => (5 <=? String.length s)%nat && negb (String.eqb s "")
  | _ => false
  end.

Definition email_ok (grammar : string -> bool) (v : Zod.raw) : bool :=
  match v with
  | Some (Text s) => grammar s && negb (String.eqb s "")
  | _ => false
  end.

Definition password_ok (v : Zod.raw) : bool :=
  match v with
  | Some (Text s) => (6 <=? String.length s)%nat && negb (String.eqb s "")
  | _ => false
  end.

(** How many characters follow the first decimal point of a text. *)
Fixpoint decimal_places (text : string) : nat :=
  match text with
  | EmptyString => 0
  | String c r => if Ascii.eqb c "." then String.length r else decimal_places r
  end.

(** The first row of [users] that carries the id, if any. *)
Definition first_user (id : string) (w : world) : option user_row :=
  head (select_users_by_id id w).1.

(** The table [users] after an accepted update of the rows of an id. *)
Definition users_updated (id name email password : string) (w : world)
  : list user_row :=
  map (fun u => if decide (user_id u = id)
                then mk_user id name email password else u) (users w).

(** A number that is neither NaN nor negative. *)
Definition not_negative (x : Num.number) : bool :=
  match x with
  | S754_zero false | S754_finite false _ _ | S754_infinity false => true
  | _ => false
  end.

(** A store with two users. *)
Definition two_users_world : world :=
  mk_world [mk_user "u1" "Alice Doe" "alice@example.com" "h1";
            mk_user "u2" "Bob Roe" "bob@example.com" "h2"]
           [] 2 [] 0 "2024-05-01T10:00:00.000Z" [] [].

(** * Properties *)

(** *** The model on small inputs *)

Example Number_tenth :
  Num.of_string "0.1" = S754_finite false 7205759403792794 (-56).
Proof. vm_compute. reflexivity. Qed.

Example Number_forms :
  map Num.of_string ["  "; " 7 "; "0x1F"; "1e3"; "12px"; "-Infinity"]
  = [S754_zero false; Num.of_Z 7; Num.of_Z 31; Num.of_Z 1000; Num.NaN;
     S754_infinity true].
Proof. vm_compute. reflexivity. Qed.

Example Number_ties_to_even :
  Num.of_string "9007199254740993" = Num.of_Z 9007199254740992.
Proof. vm_compute. reflexivity. Qed.

(** Two decimal places do not make the product an integer either. *)
Example cents_1_15 :
  Num.is_integer (Num.mul (Num.of_string "1.15") (Num.of_Z 100)) = false.
Proof. vm_compute. reflexivity. Qed.

Example empty_name_has_two_messages :
  Zod.fieldErrors
    (Zod.issues_at "name"
       (Zod.string_ None
          [Zod.min 5 "Name must be at least 5 characters long";
           Zod.nonempty "Name cannot be empty"] (Some (Text ""))))
  !! "name"
  = Some ["Name must be at least 5 characters long"; "Name cannot be empty"].
Proof. vm_compute. reflexivity. Qed.

Example finally_replaces_throw :
  try_catch_finally (R := unit) (throw (Error "a"))
    (fun _ => throw (Error "b")) (redirect "/c") empty_world
  = (Throw (NEXT_REDIRECT "/c"), empty_world).
Proof. reflexivity. Qed.

Example finally_keeps_throw :
  try_catch_finally (R := unit) (throw (Error "a"))
    (fun _ => throw (Error "b")) (revalidatePath "/c") empty_world
  = (Throw (Error "b"), with_revalidated ["/c"] empty_world).
Proof. reflexivity. Qed.

Lemma filter_none {A} (P : A -> Prop) `{!forall x, Decision (P x)} (l : list A) :
  Forall (fun x => ~ P x) l -> filter P l = [].
Proof.
  induction 1 as [|x l Hx _ IH]; [reflexivity|].
  rewrite filter_cons. destruct (decide (P x)); [contradiction | exact IH].
Qed.

Lemma filter_all {A} (P : A -> Prop) `{!forall x, Decision (P x)} (l : list A) :
  Forall P l -> filter P l = l.
Proof.
  induction 1 as [|x l Hx _ IH]; [reflexivity|].
  rewrite filter_cons. destruct (decide (P x)); [now rewrite IH | contradiction].
Qed.

(** Unfolds the constructs of the completion monad. *)
Ltac run :=
  cbv [async_function async_function_total try_catch try_catch_finally
       bind ret return_ throw await sql redirect revalidatePath
       console_print log isEmailUnique bcrypt_hash].

(** A finalizer that always throws replaces every pending completion. *)
Lemma finally_throw_wins {R} (body : block R unit) (handler : exn -> block R unit)
    (finalizer : block R unit) (e : exn) :
  (forall w, (finalizer w).1 = Throw e) ->
  forall w, (try_catch_finally body handler finalizer w).1 = Throw e.
Proof.
  intros Hfin w. unfold try_catch_finally.
  destruct (try_catch body handler w) as [pending w1].
  specialize (Hfin w1). destruct (finalizer w1) as [[?|?|?] w2]; simpl in *;
    congruence.
Qed.

Lemma try_catch_throw {R} (body : block R unit) (handler : exn -> block R unit)
    (e : exn) (w w' : world) :
  body w = (Throw e, w') -> try_catch body handler w = handler e w'.
Proof. intros H. unfold try_catch. now rewrite H. Qed.

(** *** Field errors *)

Lemma messages_at_cons key k msg (error : list Zod.issue) :
  messages_at key ((k, msg) :: error)
  = if decide (k = key) then msg :: messages_at key error
    else messages_at key error.
Proof.
  unfold messages_at. rewrite filter_cons. simpl.
  now destruct (decide (k = key)).
Qed.

Lemma fieldErrors_fold (error : list Zod.issue) (m : gmap string (list string))
    (key : string) :
  fold_left
    (fun (m : gmap string (list string)) (i : Zod.issue) =>
       <[ i.1 := default [] (m !! i.1) ++ [i.2] ]> m) error m !! key
  = if decide (messages_at key error = []) then m !! key
    else Some (default [] (m !! key) ++ messages_at key error).
Proof.
  revert m. induction error as [|[k msg] error IH]; intros m; simpl.
  - reflexivity.
  - rewrite IH, messages_at_cons.
    destruct (decide (k = key)) as [->|Hne].
    + rewrite lookup_insert_eq. simpl.
      repeat case_decide; try discriminate.
      * now replace (messages_at key error) with (@nil string).
      * now rewrite <- app_assoc.
    + now rewrite lookup_insert_ne.
Qed.

Lemma fieldErrors_lookup (error : list Zod.issue) (key : string) :
  Zod.fieldErrors error !! key
  = if decide (messages_at key error = []) then None
    else Some (messages_at key error).
Proof.
  unfold Zod.fieldErrors. rewrite fieldErrors_fold, lookup_empty. reflexivity.
Qed.

Lemma messages_at_app key (e1 e2 : list Zod.issue) :
  messages_at key (e1 ++ e2) = messages_at key e1 ++ messages_at key e2.
Proof. unfold messages_at. now rewrite filter_app, fmap_app. Qed.

Lemma messages_at_issues_at {A} key key' (r : A + list string) :
  messages_at key (Zod.issues_at key' r)
  = if decide (key' = key) then messages_of r else [].
Proof.
  unfold Zod.issues_at, messages_of.
  destruct r as [a|messages]; [now destruct (decide _)|].
  induction messages as [|msg messages IH]; [now destruct (decide _)|].
  simpl. rewrite messages_at_cons, IH.
  now destruct (decide (key' = key)).
Qed.

(** An object schema fails as soon as one key has a message, and then
    reports the issues of all its keys. *)
Lemma object3_failure {A B C T} k1 (s1 : Zod.schema A) k2 (s2 : Zod.schema B)
    k3 (s3 : Zod.schema C) (mk : A -> B -> C -> T) v1 v2 v3 :
  (forall a, s1 v1 <> inl a) \/ (forall b, s2 v2 <> inl b)
  \/ (forall c, s3 v3 <> inl c) ->
  Zod.object3 k1 s1 k2 s2 k3 s3 mk v1 v2 v3
  = Zod.Failure (Zod.issues_at k1 (s1 v1) ++ Zod.issues_at k2 (s2 v2)
                 ++ Zod.issues_at k3 (s3 v3)).
Proof.
  unfold Zod.object3.
  destruct (s1 v1) as [a|?], (s2 v2) as [b|?], (s3 v3) as [c|?];
    try reflexivity.
  intros [H|[H|H]]; [destruct (H a) | destruct (H b) | destruct (H c)];
    reflexivity.
Qed.

Lemma object3_success {A B C T} k1 (s1 : Zod.schema A) k2 (s2 : Zod.schema B)
    k3 (s3 : Zod.schema C) (mk : A -> B -> C -> T) v1 v2 v3 data :
  Zod.object3 k1 s1 k2 s2 k3 s3 mk v1 v2 v3 = Zod.Success data ->
  exists a b c, s1 v1 = inl a /\ s2 v2 = inl b /\ s3 v3 = inl c
                /\ data = mk a b c.
Proof.
  unfold Zod.object3.
  destruct (s1 v1) as [a|?], (s2 v2) as [b|?], (s3 v3) as [c|?];
    try discriminate.
  intros [= <-]. now exists a, b, c.
Qed.

(** A string schema never fails without a message. *)
Lemma string_messages ite checks v :
  messages_of (Zod.string_ ite checks v) = []
  <-> exists s, Zod.string_ ite checks v = inl s.
Proof.
  unfold Zod.string_.
  destruct v as [[s|f]|]; simpl.
  - destruct (omap _ checks) eqn:E; simpl.
    + split; [now exists s | reflexivity].
    + split; [discriminate | intros [? ?]; discriminate].
  - split; [discriminate | intros [? ?]; discriminate].
  - split; [discriminate | intros [? ?]; discriminate].
Qed.

Lemma nonempty_length (s : string) :
  (String.length s <? 1)%nat = String.eqb s "".
Proof. now destruct s. Qed.

Ltac field_entry L :=
  rewrite L, !messages_at_issues_at; repeat case_decide; try congruence;
  rewrite ?app_nil_r in *; simpl in *; try congruence.

(** The field errors of an object of three distinct keys: a key has an
    entry exactly when its field has a message, and no other key has. *)
Lemma fieldErrors_object3 {A B C} k1 k2 k3 (r1 : A + list string)
    (r2 : B + list string) (r3 : C + list string) :
  k1 <> k2 -> k1 <> k3 -> k2 <> k3 ->
  let errs := Zod.fieldErrors (Zod.issues_at k1 r1 ++ Zod.issues_at k2 r2
                               ++ Zod.issues_at k3 r3) in
  (is_Some (errs !! k1) <-> messages_of r1 <> [])
  /\ (is_Some (errs !! k2) <-> messages_of r2 <> [])
  /\ (is_Some (errs !! k3) <-> messages_of r3 <> [])
  /\ (forall key, is_Some (errs !! key) -> key = k1 \/ key = k2 \/ key = k3).
Proof.
  intros H12 H13 H23 errs.
  assert (L : forall key,
             errs !! key
             = if decide (messages_at key (Zod.issues_at k1 r1)
                          ++ messages_at key (Zod.issues_at k2 r2)
                          ++ messages_at key (Zod.issues_at k3 r3) = [])
               then None
               else Some (messages_at key (Zod.issues_at k1 r1)
                          ++ messages_at key (Zod.issues_at k2 r2)
                          ++ messages_at key (Zod.issues_at k3 r3))).
  { intros key. subst errs.
    now rewrite fieldErrors_lookup, !messages_at_app. }
  repeat split.
  1, 3, 5: field_entry L; intros [? ?]; discriminate.
  1, 2, 3: field_entry L; intros _; eexists; reflexivity.
  intros key. rewrite L, !messages_at_issues_at.
  repeat case_decide; subst; auto; intros [? ?]; simpl in *; congruence.
Qed.

Section Properties.

Variable ext : externals.

(** Whatever happens in its [try] block, [updateUser] on a valid form
    ends with the redirect thrown by its [finally] block. *)
Lemma updateUser_valid_redirects id prevState formData data w :
  UpdateUser ext (get formData "name") (get formData "email")
             (get formData "password") = Zod.Success data ->
  (updateUser ext id prevState formData w).1
  = Thrown (NEXT_REDIRECT "/dashboard/users").
Proof.
  intros Hv. unfold updateUser, async_function. rewrite Hv.
  match goal with
  | |- context [try_catch_finally ?b ?h ?f w] =>
      pose proof (finally_throw_wins b h f (NEXT_REDIRECT "/dashboard/users")
                    (fun w0 => eq_refl) w) as Hw;
      destruct (try_catch_finally b h f w) as [c w']
  end.
  simpl in Hw. now subst c.
Qed.

(** C1.  [updateUser] with a valid form and an id that no row of
    [users] carries: the caller is not told that the user was not
    found.  The promise is rejected with the redirect to the listing
    page, exactly as after an update that went through; the table is
    left as it was, the listing is revalidated, and the not-found
    error reaches the console only. *)
Theorem updateUser_unknown_id_redirects id prevState formData data w :
  UpdateUser ext (get formData "name") (get formData "email")
             (get formData "password") = Zod.Success data ->
  no_user id w ->
  let r := updateUser ext id prevState formData w in
  r.1 = Thrown (NEXT_REDIRECT "/dashboard/users")
  /\ users r.2 = users w
  /\ revalidated r.2 = revalidated w ++ ["/dashboard/users"]
  /\ (accepted 0 w ->
      console r.2
      = console w ++ [console_error [PText "Failed to update user:";
                                     PError (Error "User not found")]]).
Proof.
  intros Hv Hno r. split; [exact (updateUser_valid_redirects _ _ _ _ _ Hv)|].
  subst r. unfold updateUser. rewrite Hv. run. unfold select_users_by_id.
  unfold no_user in Hno.
  destruct (store_faults w) as [|[msg|] rest] eqn:Efs; simpl.
  - rewrite (filter_none _ _ Hno). simpl. repeat split; reflexivity.
  - repeat split; try reflexivity.
    intros Hacc. exfalso. apply (Hacc msg). now rewrite Efs.
  - rewrite (filter_none _ _ Hno). simpl. repeat split; reflexivity.
Qed.

(** C8.  On a form that fails validation [updateUser] returns the
    field errors with the message that names the invoice, and touches
    nothing. *)
Theorem updateUser_invalid_message id prevState formData error w :
  UpdateUser ext (get formData "name") (get formData "email")
             (get formData "password") = Zod.Failure error ->
  updateUser ext id prevState formData w
  = (Returned (Some (mk_State (Some (Zod.fieldErrors error))
                       (Some "Missing Fields. Failed to Update Invoice."))),
     w).
Proof. intros Hv. unfold updateUser. now rewrite Hv. Qed.

(** C3.  [createUser] with a valid form whose e-mail address is
    already carried by a row of [users]: the promise is rejected with
    the creation failure (not with the redirect), and the table is
    left as it was: no second row with that address. *)
Theorem createUser_existing_email_fails prevState formData data w :
  CreateUser ext (get formData "name") (get formData "email")
             (get formData "password") = Zod.Success data ->
  (0 < email_count (email data) w)%nat ->
  let r := createUser ext prevState formData w in
  r.1 = Thrown (Error "Failed to create user.")
  /\ users r.2 = users w
  /\ email_count (email data) r.2 = email_count (email data) w.
Proof.
  intros Hv Hcount r. subst r. unfold createUser. rewrite Hv. run.
  unfold email_count, count_users_by_email in *. simpl in Hcount.
  apply Nat.ltb_lt in Hcount. simpl.
  destruct (store_faults w) as [|[msg|] rest] eqn:Efs; simpl;
    rewrite ?Hcount; simpl; repeat split; reflexivity.
Qed.

(** On a rejected statement [createUser] rejects its promise with
    the creation failure. *)
Lemma createUser_store_failure prevState formData data w :
  CreateUser ext (get formData "name") (get formData "email")
             (get formData "password") = Zod.Success data ->
  rejected 0 w \/ rejected 1 w ->
  (createUser ext prevState formData w).1
  = Thrown (Error "Failed to create user.").
Proof.
  intros Hv Hrej. unfold createUser. rewrite Hv. run. simpl.
  unfold rejected in Hrej.
  destruct (store_faults w) as [|[m0|] [|[m1|] rest]] eqn:Efs; simpl in *;
    try reflexivity;
    try (destruct Hrej as [[? ?]|[? ?]]; discriminate);
    destruct (0 <? _)%nat; simpl; try rewrite Efs; simpl; try reflexivity.
  all: destruct Hrej as [[? ?]|[? ?]]; discriminate.
Qed.

(** C7.  A statement rejected by the store during [updateUser]: the
    [catch] block runs and throws the update failure, but the promise
    is rejected with the redirect thrown by the [finally] block, so
    the failure does not propagate to the caller. *)
Theorem updateUser_store_failure_redirects id prevState formData data w message :
  UpdateUser ext (get formData "name") (get formData "email")
             (get formData "password") = Zod.Success data ->
  store_faults w !! 0 = Some (Some message) ->
  let r := updateUser ext id prevState formData w in
  r.1 = Thrown (NEXT_REDIRECT "/dashboard/users")
  /\ r.1 <> Thrown (Error "Failed to update user.")
  /\ console r.2
     = console w ++ [console_error [PText "Failed to update user:";
                                    PError (DatabaseError message)]]
  /\ users r.2 = users w.
Proof.
  intros Hv Hrej r.
  assert (Hr : r.1 = Thrown (NEXT_REDIRECT "/dashboard/users"))
    by exact (updateUser_valid_redirects _ _ _ _ _ Hv).
  split; [exact Hr|]. split; [rewrite Hr; discriminate|].
  subst r. unfold updateUser. rewrite Hv. run.
  destruct (store_faults w) as [|[m0|] rest] eqn:Efs; simpl in *;
    try discriminate.
  injection Hrej as ->. split; reflexivity.
Qed.

(** C4.  [authenticate] when [signIn] throws: a provider error of
    type [CredentialsSignin] gives the first message, a provider
    error of any other type the second, and a thrown value that is not
    a provider error is thrown on as it is. *)
Theorem authenticate_classifies prevState formData w e w' :
  signIn ext "credentials" formData w = (Thrown e, w') ->
  (e = AuthError "CredentialsSignin" ->
   authenticate ext prevState formData w
   = (Returned (Some "Invalid credentials."), w'))
  /\ (forall type, e = AuthError type -> type <> "CredentialsSignin" ->
      authenticate ext prevState formData w
      = (Returned (Some "Something went wrong."), w'))
  /\ ((forall type, e <> AuthError type) ->
      authenticate ext prevState formData w = (Thrown e, w')).
Proof.
  intros Hs. unfold authenticate. run. rewrite Hs.
  split; [|split].
  - intros ->. reflexivity.
  - intros type -> Hne. apply String.eqb_neq in Hne. now rewrite Hne.
  - intros Hne. destruct e; try reflexivity. now destruct (Hne type).
Qed.

(** A string comes out of [authenticate] only when [signIn] threw a
    provider error. *)
Lemma authenticate_message_origin prevState formData w text w' :
  authenticate ext prevState formData w = (Returned (Some text), w') ->
  exists type, signIn ext "credentials" formData w = (Thrown (AuthError type), w').
Proof.
  unfold authenticate. run.
  destruct (signIn ext "credentials" formData w) as [[[]|e] w1]; simpl.
  - discriminate.
  - destruct e; simpl; try discriminate.
    exists type. destruct (String.eqb type _); congruence.
Qed.

(** *** Validation of a user form *)

Lemma userSchema_name_ok v :
  messages_of (userSchema_name v) = [] <-> name_ok v = true.
Proof.
  destruct v as [[s|f]|]; try (split; discriminate).
  cbn -[Nat.leb Nat.ltb String.length String.eqb].
  unfold Zod.nonempty, Zod.min. rewrite nonempty_length, Nat.ltb_antisym.
  destruct (5 <=? String.length s)%nat, (String.eqb s "");
    split; discriminate || reflexivity.
Qed.

Lemma userSchema_email_ok v :
  messages_of (userSchema_email ext v) = []
  <-> email_ok (email_grammar ext) v = true.
Proof.
  destruct v as [[s|f]|]; try (split; discriminate).
  cbn -[Nat.leb Nat.ltb String.length String.eqb].
  unfold Zod.nonempty, Zod.min, Zod.email. rewrite nonempty_length.
  destruct (email_grammar ext s), (String.eqb s "");
    split; discriminate || reflexivity.
Qed.

Lemma userSchema_password_ok v :
  messages_of (userSchema_password v) = [] <-> password_ok v = true.
Proof.
  destruct v as [[s|f]|]; try (split; discriminate).
  cbn -[Nat.leb Nat.ltb String.length String.eqb].
  unfold Zod.nonempty, Zod.min. rewrite nonempty_length, Nat.ltb_antisym.
  destruct (6 <=? String.length s)%nat, (String.eqb s "");
    split; discriminate || reflexivity.
Qed.

(** C6.  A user form on which one or more of the three constraints
    fail: [createUser] and [updateUser] return, without touching the
    store, a field-error map that has an entry for each field whose
    constraint fails, none for a field whose constraint holds, and no
    other entry. *)
Theorem user_validation_reports_every_field id prevState formData w :
  name_ok (get formData "name")
  && email_ok (email_grammar ext) (get formData "email")
  && password_ok (get formData "password") = false ->
  exists errs : gmap string (list string),
    createUser ext prevState formData w
    = (Returned (Some (mk_State (Some errs)
                         (Some "Missing Fields. Failed to Create User."))),
       with_console (console w ++ [console_log [PText "Validation Fields..."]])
                    w)
    /\ updateUser ext id prevState formData w
       = (Returned (Some (mk_State (Some errs)
                            (Some "Missing Fields. Failed to Update Invoice."))),
          w)
    /\ (is_Some (errs !! "name") <-> name_ok (get formData "name") = false)
    /\ (is_Some (errs !! "email")
        <-> email_ok (email_grammar ext) (get formData "email") = false)
    /\ (is_Some (errs !! "password")
        <-> password_ok (get formData "password") = false)
    /\ (forall key, is_Some (errs !! key) ->
                    key = "name" \/ key = "email" \/ key = "password").
Proof.
  intros Hbad.
  assert (Hfail :
    (forall a, userSchema_name (get formData "name") <> inl a)
    \/ (forall b, userSchema_email ext (get formData "email") <> inl b)
    \/ (forall c, userSchema_password (get formData "password") <> inl c)).
  { apply andb_false_iff in Hbad as [Hbad|Hbad];
      [apply andb_false_iff in Hbad as [Hbad|Hbad]|].
    - left. intros a Ha.
      assert (name_ok (get formData "name") = true); [|congruence].
      apply userSchema_name_ok, string_messages. now exists a.
    - right; left. intros a Ha.
      assert (email_ok (email_grammar ext) (get formData "email") = true);
        [|congruence].
      apply userSchema_email_ok, string_messages. now exists a.
    - right; right. intros a Ha.
      assert (password_ok (get formData "password") = true); [|congruence].
      apply userSchema_password_ok, string_messages. now exists a. }
  pose proof (object3_failure "name" userSchema_name
                "email" (userSchema_email ext) "password" userSchema_password
                mk_UserData _ _ _ Hfail) as Hparse.
  destruct (fieldErrors_object3 "name" "email" "password"
              (userSchema_name (get formData "name"))
              (userSchema_email ext (get formData "email"))
              (userSchema_password (get formData "password")))
    as (Hn & He & Hp & Hkeys); try discriminate.
  eexists. split; [|split].
  - unfold createUser, CreateUser. rewrite Hparse. reflexivity.
  - unfold updateUser, UpdateUser. rewrite Hparse. reflexivity.
  - rewrite Hn, He, Hp, userSchema_name_ok, userSchema_email_ok,
      userSchema_password_ok, !not_true_iff_false.
    repeat split; tauto.
Qed.

(** C10.  [authenticate] when [signIn] completes without throwing:
    the result is [undefined]; and whenever the result is a string,
    [signIn] threw a provider error. *)
Theorem authenticate_signed_in prevState formData w w' :
  signIn ext "credentials" formData w = (Returned tt, w') ->
  authenticate ext prevState formData w = (Returned None, w')
  /\ (forall w0 text w0',
        authenticate ext prevState formData w0 = (Returned (Some text), w0') ->
        exists type,
          signIn ext "credentials" formData w0 = (Thrown (AuthError type), w0')).
Proof.
  intros Hs. split.
  - unfold authenticate. run. now rewrite Hs.
  - intros w0 text w0'. apply authenticate_message_origin.
Qed.

End Properties.

(** On a rejected statement [deleteUser] rejects its promise with the
    deletion failure, and the invoice handlers return a message. *)
Lemma store_failure_elsewhere id prevState formData data w :
  rejected 0 w ->
  (deleteUser id w).1 = Thrown (Error "Failed to delete user.")
  /\ (deleteInvoice id w).1
     = Returned (Some (mk_State None
                         (Some "Database Error: Failed to Delete Invoice.")))
  /\ (CreateInvoice (get formData "customerId") (get formData "amount")
                    (get formData "status") = Zod.Success data ->
      (createInvoice prevState formData w).1
      = Returned (Some (mk_State None
                          (Some "Database Error: Failed to Create Invoice."))))
  /\ (UpdateInvoice (get formData "customerId") (get formData "amount")
                    (get formData "status") = Zod.Success data ->
      (updateInvoice id prevState formData w).1
      = Returned (Some (mk_State None
                          (Some "Database Error: Failed to Update Invoice.")))).
Proof.
  intros [message Hrej].
  destruct (store_faults w) as [|[m0|] rest] eqn:Efs; simpl in Hrej;
    try discriminate.
  repeat split.
  - unfold deleteUser. run. now rewrite Efs.
  - unfold deleteInvoice. run. now rewrite Efs.
  - intros Hv. unfold createInvoice. rewrite Hv. run. simpl. now rewrite Efs.
  - intros Hv. unfold updateInvoice. rewrite Hv. run. now rewrite Efs.
Qed.

(** C5.  Deleting by an id that no row carries, the statement being
    accepted: both delete handlers return their confirmation message,
    and the tables are left as they were. *)
Theorem delete_absent_id_confirms id w :
  accepted 0 w ->
  no_user id w ->
  no_invoice id w ->
  ((deleteUser id w).1 = Returned (Some (mk_State None (Some "Deleted User.")))
   /\ users (deleteUser id w).2 = users w)
  /\ ((deleteInvoice id w).1
      = Returned (Some (mk_State None (Some "Deleted Invoice.")))
      /\ invoices (deleteInvoice id w).2 = invoices w).
Proof.
  intros Hacc Hu Hi. unfold accepted in Hacc.
  unfold deleteUser, deleteInvoice. run. unfold delete_user, delete_invoice.
  destruct (store_faults w) as [|[m0|] rest] eqn:Efs; simpl;
    try (now destruct (Hacc m0));
    (split; split; [reflexivity | now apply filter_all | reflexivity
                   | now apply filter_all]).
Qed.

(** *** Validation and amounts of an invoice form *)

Lemma CreateInvoice_data v1 v2 v3 data :
  CreateInvoice v1 v2 v3 = Zod.Success data ->
  v1 = Some (Text (customerId data))
  /\ amount data = Zod.Number v2
  /\ v3 = Some (Text (status data)).
Proof.
  intros H. apply object3_success in H as (a & b & c & H1 & H2 & H3 & ->).
  simpl. repeat split.
  - destruct v1 as [[s|f]|]; try discriminate. simpl in H1. congruence.
  - unfold FormSchema_amount, Zod.coerce_number_gt in H2.
    destruct (Zod.Number v2) eqn:E; try discriminate;
      destruct (Num.gt _ _); congruence.
  - destruct v3 as [[s|f]|]; try discriminate.
    unfold FormSchema_status, Zod.enum in H3.
    destruct (existsb _ _); congruence.
Qed.

Lemma FormSchema_status_valid st :
  st = "pending" \/ st = "paid" ->
  FormSchema_status (Some (Text st)) = inl st.
Proof. intros [->| ->]; reflexivity. Qed.

Lemma FormSchema_status_invalid v :
  v <> Some (Text "pending") -> v <> Some (Text "paid") ->
  exists message, FormSchema_status v = inr [message].
Proof.
  intros H1 H2. destruct v as [[s|f]|]; try (eexists; reflexivity).
  unfold FormSchema_status, Zod.enum. cbn [existsb].
  destruct (String.eqb_spec s "pending") as [->|_]; [congruence|].
  destruct (String.eqb_spec s "paid") as [->|_]; [congruence|].
  eexists; reflexivity.
Qed.

Lemma FormSchema_amount_12_34 :
  FormSchema_amount (Some (Text "12.34")) = inl (Num.of_string "12.34").
Proof. vm_compute. reflexivity. Qed.

Lemma cents_12_34 :
  Num.mul (Num.of_string "12.34") (Num.of_Z 100) = Num.of_Z 1234.
Proof. vm_compute. reflexivity. Qed.

(** C2.  [createInvoice] on a form whose amount is the text [12.34],
    with a customer and a status among [pending] and [paid], the insert
    being accepted: the row added carries the amount 1234 exactly and
    that status.  On a form whose status is anything else, validation
    fails with an entry for [status] and nothing at all happens to the
    world: no statement is issued. *)
Theorem createInvoice_cents_and_status prevState formData formData' customer st w :
  get formData "customerId" = Some (Text customer) ->
  get formData "amount" = Some (Text "12.34") ->
  get formData "status" = Some (Text st) ->
  st = "pending" \/ st = "paid" ->
  accepted 0 w ->
  get formData' "status" <> Some (Text "pending") ->
  get formData' "status" <> Some (Text "paid") ->
  (exists row,
     invoices (createInvoice prevState formData w).2 = invoices w ++ [row]
     /\ invoice_amount row = Num.of_Z 1234
     /\ Num.is_value (invoice_amount row) 1234 1
     /\ invoice_status row = st)
  /\ (exists errs : gmap string (list string),
        createInvoice prevState formData' w
        = (Returned (Some (mk_State (Some errs)
                             (Some "Missing Fields. Failed to Create Invoice."))),
           w)
        /\ is_Some (errs !! "status")).
Proof.
  intros Hc Ha Hs Hst Hacc Hbad1 Hbad2. split.
  - unfold createInvoice, CreateInvoice, Zod.object3.
    rewrite Hc, Ha, Hs, FormSchema_amount_12_34, (FormSchema_status_valid _ Hst).
    cbn [FormSchema_customerId Zod.string_ omap list_omap amount customerId
         status].
    rewrite cents_12_34. run. unfold insert_invoice.
    eexists. unfold accepted in Hacc.
    destruct (store_faults w) as [|[m0|] rest] eqn:Efs; simpl.
    + repeat split; vm_compute; reflexivity.
    + now destruct (Hacc m0).
    + repeat split; vm_compute; reflexivity.
  - destruct (FormSchema_status_invalid _ Hbad1 Hbad2) as [message Hm].
    assert (Hfail :
      (forall a, FormSchema_customerId (get formData' "customerId") <> inl a)
      \/ (forall b, FormSchema_amount (get formData' "amount") <> inl b)
      \/ (forall c, FormSchema_status (get formData' "status") <> inl c)).
    { right; right. intros c. rewrite Hm. discriminate. }
    pose proof (object3_failure "customerId" FormSchema_customerId
                  "amount" FormSchema_amount "status" FormSchema_status
                  mk_InvoiceData _ _ _ Hfail) as Hparse.
    destruct (fieldErrors_object3 "customerId" "amount" "status"
                (FormSchema_customerId (get formData' "customerId"))
                (FormSchema_amount (get formData' "amount"))
                (FormSchema_status (get formData' "status")))
      as (_ & _ & Hstatus & _); try discriminate.
    eexists. split.
    + unfold createInvoice, CreateInvoice. rewrite Hparse. reflexivity.
    + apply Hstatus. rewrite Hm. discriminate.
Qed.

(** C9, as the code has it.  [createInvoice] and [updateInvoice] give
    the store the binary64 product of the amount and 100 as it is, with
    no rounding and no truncation to an integer; so the amount text
    [12.345] reaches the store as 1234.5, which is not an integer. *)
Theorem invoice_amount_sent_unrounded id prevState formData data w :
  CreateInvoice (get formData "customerId") (get formData "amount")
                (get formData "status") = Zod.Success data ->
  accepted 0 w ->
  let sent := Num.mul (Zod.Number (get formData "amount")) (Num.of_Z 100) in
  invoices (createInvoice prevState formData w).2
  = invoices w ++ [mk_invoice (fresh_id w) (customerId data) sent
                              (status data) (today w)]
  /\ invoices (updateInvoice id prevState formData w).2
     = map (fun r => if decide (invoice_id r = id)
                     then mk_invoice id (customerId data) sent (status data)
                                     (invoice_date r)
                     else r) (invoices w)
  /\ (get formData "amount" = Some (Text "12.345") ->
      Num.is_value sent 2469 2 /\ Num.is_integer sent = false).
Proof.
  intros Hv Hacc sent.
  destruct (CreateInvoice_data _ _ _ _ Hv) as (_ & Hamount & _).
  unfold accepted in Hacc. split; [|split].
  - unfold createInvoice. rewrite Hv. run.
    unfold insert_invoice. rewrite Hamount. fold sent.
    destruct (store_faults w) as [|[m0|] rest] eqn:Efs; simpl;
      [reflexivity | now destruct (Hacc m0) | reflexivity].
  - unfold updateInvoice.
    change (UpdateInvoice (get formData "customerId") (get formData "amount")
              (get formData "status"))
      with (CreateInvoice (get formData "customerId") (get formData "amount")
              (get formData "status")).
    rewrite Hv. run. unfold update_invoice. rewrite Hamount. fold sent.
    destruct (store_faults w) as [|[m0|] rest] eqn:Efs; simpl;
      [reflexivity | now destruct (Hacc m0) | reflexivity].
  - intros Ha. subst sent. rewrite Ha. vm_compute. split; reflexivity.
Qed.

(** C9, as stated, fails: the amount text [1.0000000000000000001] has
    more than two decimal places, [Number] rounds it to 1, and the
    value that reaches the store is the integer 100. *)
Lemma long_fraction_sent_as_integer :
  ~ (forall prevState formData text w row,
       get formData "amount" = Some (Text text) ->
       (2 < decimal_places text)%nat ->
       invoices (createInvoice prevState formData w).2 = invoices w ++ [row] ->
       Num.is_integer (invoice_amount row) = false).
Proof.
  intros H.
  specialize (H a_state (invoice_form "c1" "1.0000000000000000001" "pending")
                "1.0000000000000000001" empty_world
                (mk_invoice "0" "c1" (Num.of_Z 100) "pending" "")
                eq_refl).
  assert (Hplaces : (2 < decimal_places "1.0000000000000000001")%nat)
    by (vm_compute; lia).
  specialize (H Hplaces). vm_compute in H. specialize (H eq_refl).
  discriminate.
Qed.

(** The same happens with a third decimal that is a zero. *)
Lemma trailing_zero_sent_as_integer :
  Num.mul (Num.of_string "12.340") (Num.of_Z 100) = Num.of_Z 1234.
Proof. vm_compute. reflexivity. Qed.

(** ** The theorems at work on the samples *)

Lemma updateUser_unknown_id_redirects_witness :
  no_user "u9" sample_world
  /\ (updateUser demo "u9" a_state (user_form "Bobby" "bob@example.com" "secret1")
                  sample_world).1
     = Thrown (NEXT_REDIRECT "/dashboard/users").
Proof.
  assert (Hno : no_user "u9" sample_world) by (repeat constructor; discriminate).
  split; [exact Hno|].
  exact (proj1 (updateUser_unknown_id_redirects demo "u9" a_state
                  (user_form "Bobby" "bob@example.com" "secret1")
                  (mk_UserData "Bobby" "bob@example.com" "secret1")
                  sample_world eq_refl Hno)).
Defined.

Lemma createInvoice_cents_and_status_witness :
  exists row,
    invoices (createInvoice a_state (invoice_form "c1" "12.34" "pending")
                            sample_world).2
    = invoices sample_world ++ [row]
    /\ invoice_amount row = Num.of_Z 1234.
Proof.
  destruct (createInvoice_cents_and_status a_state
              (invoice_form "c1" "12.34" "pending")
              (invoice_form "c1" "12.34" "draft") "c1" "pending" sample_world
              eq_refl eq_refl eq_refl (or_introl eq_refl))
    as [(row & Hrows & Hamount & _) _].
  - intros message H. discriminate H.
  - discriminate.
  - discriminate.
  - exists row. split; assumption.
Defined.

Lemma createUser_existing_email_fails_witness :
  (0 < email_count "alice@example.com" sample_world)%nat
  /\ (createUser demo a_state (user_form "Alice Two" "alice@example.com" "secret1")
                  sample_world).1
     = Thrown (Error "Failed to create user.").
Proof.
  assert (Hc : (0 < email_count "alice@example.com" sample_world)%nat)
    by (vm_compute; lia).
  split; [exact Hc|].
  exact (proj1 (createUser_existing_email_fails demo a_state
                  (user_form "Alice Two" "alice@example.com" "secret1")
                  (mk_UserData "Alice Two" "alice@example.com" "secret1")
                  sample_world eq_refl Hc)).
Defined.

Lemma authenticate_classifies_witness :
  authenticate demo None [("password", Text "wrong")] sample_world
  = (Returned (Some "Invalid credentials."), sample_world)
  /\ authenticate demo None [("password", File "a.png")] sample_world
     = (Returned (Some "Something went wrong."), sample_world)
  /\ authenticate demo None [] sample_world
     = (Thrown (Error "fetch failed"), sample_world).
Proof.
  split; [|split].
  - exact (proj1 (authenticate_classifies demo None [("password", Text "wrong")]
                    sample_world (AuthError "CredentialsSignin") sample_world
                    eq_refl) eq_refl).
  - refine (proj1 (proj2 (authenticate_classifies demo None
                            [("password", File "a.png")] sample_world
                            (AuthError "CallbackRouteError") sample_world
                            eq_refl)) "CallbackRouteError" eq_refl _).
    discriminate.
  - refine (proj2 (proj2 (authenticate_classifies demo None [] sample_world
                            (Error "fetch failed") sample_world eq_refl)) _).
    intros type. discriminate.
Defined.

Lemma delete_absent_id_confirms_witness :
  (deleteUser "u9" sample_world).1
  = Returned (Some (mk_State None (Some "Deleted User.")))
  /\ (deleteInvoice "u9" sample_world).1
     = Returned (Some (mk_State None (Some "Deleted Invoice."))).
Proof.
  destruct (delete_absent_id_confirms "u9" sample_world) as [[Hu _] [Hi _]].
  - intros message H. discriminate H.
  - repeat constructor; discriminate.
  - repeat constructor; discriminate.
  - split; assumption.
Defined.

Lemma user_validation_reports_every_field_witness :
  exists errs : gmap string (list string),
    (createUser demo a_state (user_form "ab" "not-an-email" "123")
                sample_world).1
    = Returned (Some (mk_State (Some errs)
                        (Some "Missing Fields. Failed to Create User.")))
    /\ is_Some (errs !! "name") /\ is_Some (errs !! "email")
    /\ is_Some (errs !! "password").
Proof.
  destruct (user_validation_reports_every_field demo "u1" a_state
              (user_form "ab" "not-an-email" "123") sample_world eq_refl)
    as (errs & Hc & _ & Hn & He & Hp & _).
  exists errs. rewrite Hc. repeat split.
  - apply Hn. reflexivity.
  - apply He. reflexivity.
  - apply Hp. reflexivity.
Defined.

Lemma updateUser_store_failure_redirects_witness :
  (updateUser demo "u1" a_state (user_form "Alice Doe" "alice@example.com" "secret1")
              failing_world).1
  = Thrown (NEXT_REDIRECT "/dashboard/users").
Proof.
  exact (proj1 (updateUser_store_failure_redirects demo "u1" a_state
                  (user_form "Alice Doe" "alice@example.com" "secret1")
                  (mk_UserData "Alice Doe" "alice@example.com" "secret1")
                  failing_world "connection refused" eq_refl eq_refl)).
Defined.

Lemma updateUser_invalid_message_witness :
  exists errs,
    updateUser demo "u1" a_state (user_form "ab" "alice@example.com" "secret1")
               sample_world
    = (Returned (Some (mk_State (Some errs)
                         (Some "Missing Fields. Failed to Update Invoice."))),
       sample_world).
Proof.
  eexists.
  exact (updateUser_invalid_message demo "u1" a_state
           (user_form "ab" "alice@example.com" "secret1") _ sample_world eq_refl).
Defined.

Lemma invoice_amount_sent_unrounded_witness :
  exists row,
    invoices (createInvoice a_state (invoice_form "c1" "12.345" "paid")
                            sample_world).2
    = invoices sample_world ++ [row]
    /\ Num.is_value (invoice_amount row) 2469 2
    /\ Num.is_integer (invoice_amount row) = false.
Proof.
  destruct (invoice_amount_sent_unrounded "i1" a_state
              (invoice_form "c1" "12.345" "paid")
              (mk_InvoiceData "c1" (Num.of_string "12.345") "paid")
              sample_world) as (Hrows & _ & Hvalue).
  - vm_compute. reflexivity.
  - intros message H. discriminate H.
  - eexists. split; [exact Hrows|]. exact (Hvalue eq_refl).
Defined.

Lemma authenticate_signed_in_witness :
  authenticate demo None [("password", Text "123456")] sample_world
  = (Returned None, sample_world).
Proof.
  exact (proj1 (authenticate_signed_in demo None [("password", Text "123456")]
                  sample_world sample_world eq_refl)).
Defined.

(** * Further properties of the handlers *)

(** Discharges the runs in which the store rejects a statement that a
    hypothesis [accepted n w] says it accepts. *)
Ltac accepted_only :=
  try (exfalso;
       match goal with
       | H : accepted _ _ |- _ => unfold accepted in H; eapply H;
                                  match goal with
                                  | E : store_faults _ = _ |- _ => rewrite E
                                  end; reflexivity
       end).

Lemma email_count_app (email : string) (w : world) (row : user_row) :
  user_email row = email ->
  length (filter (fun u => user_email u = email) (users w ++ [row]))
  = S (email_count email w).
Proof.
  intros He. unfold email_count, count_users_by_email. simpl.
  rewrite filter_app, length_app. simpl. rewrite filter_cons. simpl.
  destruct (decide (user_email row = email)); [simpl; lia | contradiction].
Qed.

Section MoreProperties.

Variable ext : externals.


(** In every run of [createUser], either the caller is redirected, one
    row has been added and the listing revalidated, or the caller is
    not redirected, the table is as it was and nothing is revalidated.
    The function never ends with [undefined]. *)
Theorem createUser_redirects_iff_inserted prevState formData w :
  let r := createUser ext prevState formData w in
  (r.1 = Thrown (NEXT_REDIRECT "/dashboard/users")
   /\ (exists row, users r.2 = users w ++ [row])
   /\ revalidated r.2 = revalidated w ++ ["/dashboard/users"])
  \/ ((r.1 = Thrown (Error "Failed to create user.")
       \/ exists errs,
            r.1 = Returned (Some (mk_State (Some errs)
                    (Some "Missing Fields. Failed to Create User."))))
      /\ users r.2 = users w
      /\ revalidated r.2 = revalidated w).
Proof.
  intros r. subst r. unfold createUser.
  destruct (CreateUser ext _ _ _) as [data|error]; run.
  - unfold insert_user, count_users_by_email. cbn -[pretty Nat.ltb].
    destruct (store_faults w) as [|[m0|] [|[m1|] rest]] eqn:Efs;
      cbn -[pretty Nat.ltb];
      try (right; repeat split; auto; fail);
      destruct (0 <? _)%nat; cbn -[pretty]; rewrite ?Efs; cbn -[pretty];
      try (right; repeat split; auto; fail);
      left; repeat split; eauto.
  - right. simpl. repeat split; eauto.
Qed.

(** A valid user form gives its three texts as they are. *)
Lemma string_value ite checks v s :
  Zod.string_ ite checks v = inl s -> v = Some (Text s).
Proof.
  unfold Zod.string_. destruct v as [[t|f]|]; try discriminate.
  destruct (omap _ checks); [congruence | discriminate].
Qed.


Lemma createUser_refuses_present_email prevState formData data w :
  CreateUser ext (get formData "name") (get formData "email")
             (get formData "password") = Zod.Success data ->
  (0 < email_count (email data) w)%nat ->
  (createUser ext prevState formData w).1
  = Thrown (Error "Failed to create user.")
  /\ users (createUser ext prevState formData w).2 = users w.
Proof.
  intros Hv Hcount. unfold createUser. rewrite Hv. run.
  unfold email_count, count_users_by_email in *. simpl in Hcount.
  apply Nat.ltb_lt in Hcount. simpl.
  destruct (store_faults w) as [|[msg|] rest] eqn:Efs; simpl;
    rewrite ?Hcount; simpl; split; reflexivity.
Qed.

Lemma createUser_inserted_row prevState formData data w :
  CreateUser ext (get formData "name") (get formData "email")
             (get formData "password") = Zod.Success data ->
  (createUser ext prevState formData w).1
  = Thrown (NEXT_REDIRECT "/dashboard/users") ->
  exists id hash,
    users (createUser ext prevState formData w).2
    = users w ++ [mk_user id (name data) (email data) hash].
Proof.
  intros Hv. unfold createUser. rewrite Hv. run.
  unfold insert_user, count_users_by_email. cbn -[pretty Nat.ltb].
  destruct (store_faults w) as [|[m0|] [|[m1|] rest]] eqn:Efs;
    cbn -[pretty Nat.ltb]; try discriminate;
    destruct (0 <? _)%nat; cbn -[pretty]; rewrite ?Efs; cbn -[pretty];
    try discriminate; intros _; eauto.
Qed.

(** The uniqueness check holds between two calls in a row: after a
    [createUser] that redirected, a second [createUser] with the same
    form is rejected with the creation failure and adds no row. *)
Theorem createUser_twice prevState prevState' formData data w :
  CreateUser ext (get formData "name") (get formData "email")
             (get formData "password") = Zod.Success data ->
  (createUser ext prevState formData w).1
  = Thrown (NEXT_REDIRECT "/dashboard/users") ->
  let w1 := (createUser ext prevState formData w).2 in
  (createUser ext prevState' formData w1).1
  = Thrown (Error "Failed to create user.")
  /\ users (createUser ext prevState' formData w1).2 = users w1.
Proof.
  intros Hv Hr w1.
  destruct (createUser_inserted_row _ _ _ _ Hv Hr) as (id & hash & Hrows).
  apply createUser_refuses_present_email with (data := data); [exact Hv|].
  unfold email_count, count_users_by_email. simpl. fold w1 in Hrows.
  rewrite Hrows, email_count_app by reflexivity. lia.
Qed.


(** Creating a user and then deleting the id it was given brings the
    table back to what it was, when no earlier row carried that id. *)
Theorem createUser_then_deleteUser prevState formData data w :
  CreateUser ext (get formData "name") (get formData "email")
             (get formData "password") = Zod.Success data ->
  email_count (email data) w = 0%nat ->
  accepted 0 w -> accepted 1 w -> accepted 2 w ->
  no_user (fresh_id w) w ->
  let w1 := (createUser ext prevState formData w).2 in
  (deleteUser (fresh_id w) w1).1
  = Returned (Some (mk_State None (Some "Deleted User.")))
  /\ users (deleteUser (fresh_id w) w1).2 = users w.
Proof.
  intros Hv Hcount H0 H1 H2 Hno w1. subst w1.
  unfold createUser, deleteUser. rewrite Hv. run.
  unfold email_count, count_users_by_email in Hcount. simpl in Hcount.
  unfold insert_user, delete_user, no_user, fresh_id in *.
  cbn -[pretty Nat.ltb].
  assert (Hfilter :
    filter (fun u => user_id u <> pretty (next_id w))
      (users w ++ [mk_user (pretty (next_id w)) (name data) (email data)
                           (bcrypt ext (password data) 10 (entropy w))])
    = users w).
  { rewrite filter_app, (filter_all _ _ Hno), filter_cons. cbn -[pretty].
    destruct (decide (pretty (next_id w) <> pretty (next_id w)));
      [congruence|]. now rewrite app_nil_r. }
  destruct (store_faults w) as [|[m0|] [|[m1|] [|[m2|] rest]]] eqn:Efs;
    cbn -[pretty Nat.ltb]; rewrite ?Hcount;
    repeat (progress (rewrite ?Efs; cbn -[pretty])); accepted_only;
    (split; [reflexivity | exact Hfilter]).
Qed.

(** *** [updateUser] *)

Lemma first_user_rows id w row0 :
  first_user id w = Some row0 ->
  exists others,
    filter (fun u => user_id u = id) (users w) = row0 :: others.
Proof.
  unfold first_user, select_users_by_id. simpl.
  destruct (filter _ (users w)) as [|r others]; [discriminate|].
  intros [= ->]. now exists others.
Qed.


(** [updateUser] on a valid form that keeps the address of the row
    found, the two statements being accepted: every row of that id
    gets the name, the address and a new hash of the password, with a
    salt of its own, also when the password is the one it had; nothing
    is printed and the caller is redirected. *)
Theorem updateUser_success id prevState formData data row0 w :
  UpdateUser ext (get formData "name") (get formData "email")
             (get formData "password") = Zod.Success data ->
  first_user id w = Some row0 ->
  user_email row0 = email data ->
  accepted 0 w -> accepted 1 w ->
  let r := updateUser ext id prevState formData w in
  r.1 = Thrown (NEXT_REDIRECT "/dashboard/users")
  /\ users r.2
     = users_updated id (name data) (email data)
                     (bcrypt ext (password data) 10 (entropy w)) w
  /\ entropy r.2 = S (entropy w)
  /\ console r.2 = console w.
Proof.
  intros Hv Hrow He H0 H1 r. subst r.
  destruct (first_user_rows _ _ _ Hrow) as [others Hrows].
  unfold updateUser. rewrite Hv. run.
  unfold select_users_by_id, update_user, users_updated.
  cbn -[pretty Nat.eqb String.eqb].
  destruct (store_faults w) as [|[m0|] [|[m1|] rest]] eqn:Efs;
    cbn -[pretty Nat.eqb String.eqb]; rewrite ?Hrows;
    cbn -[pretty Nat.eqb String.eqb]; rewrite ?He, ?String.eqb_refl;
    repeat (progress (rewrite ?Efs; cbn -[pretty]));
    accepted_only; repeat split; reflexivity.
Qed.

Lemma updated_email_count id name email password (rows : list user_row) :
  (length (filter (fun u => user_email u = email) rows)
   + length (filter (fun u => user_id u = id /\ user_email u <> email) rows)
   <= length (filter (fun u => user_email u = email)
                (map (fun u => if decide (user_id u = id)
                               then mk_user id name email password else u)
                     rows)))%nat.
Proof.
  induction rows as [|u rows IH]; [reflexivity|].
  rewrite map_cons, !filter_cons.
  destruct (decide (user_id u = id)) as [Hid|Hid]; simpl.
  - destruct (decide (email = email)); [|congruence].
    destruct (decide (user_email u = email)),
      (decide (user_id u = id /\ user_email u <> email));
      simpl; try lia; tauto.
  - destruct (decide (user_email u = email)),
      (decide (user_id u = id /\ user_email u <> email));
      simpl; try lia; tauto.
Qed.

(** The uniqueness check of [updateUser] does not stop an address that
    is in use: on a valid form whose address differs from the one of
    the row found and is carried by a row already, the statements
    being accepted, the update goes through, and two rows or more
    carry the address afterwards. *)
Theorem updateUser_taken_email_goes_through id prevState formData data row0 w :
  UpdateUser ext (get formData "name") (get formData "email")
             (get formData "password") = Zod.Success data ->
  first_user id w = Some row0 ->
  user_email row0 <> email data ->
  (0 < email_count (email data) w)%nat ->
  accepted 0 w -> accepted 1 w -> accepted 2 w ->
  let r := updateUser ext id prevState formData w in
  users r.2
  = users_updated id (name data) (email data)
                  (bcrypt ext (password data) 10 (entropy w)) w
  /\ (2 <= email_count (email data) r.2)%nat.
Proof.
  intros Hv Hrow He Hcount H0 H1 H2 r.
  destruct (first_user_rows _ _ _ Hrow) as [others Hrows].
  assert (Hupd : users r.2
                 = users_updated id (name data) (email data)
                     (bcrypt ext (password data) 10 (entropy w)) w).
  { subst r. unfold updateUser. rewrite Hv. run.
    unfold email_count, count_users_by_email in Hcount. simpl in Hcount.
    assert (Hnz : (length (filter (fun u => user_email u = email data)
                             (users w)) =? 0)%nat = false)
      by (apply Nat.eqb_neq; lia).
    assert (Hne : negb (String.eqb (email data) (user_email row0)) = true).
    { apply negb_true_iff, String.eqb_neq. congruence. }
    unfold select_users_by_id, update_user, users_updated,
      count_users_by_email.
    cbn -[pretty Nat.eqb String.eqb].
    destruct (store_faults w) as [|[m0|] [|[m1|] [|[m2|] rest]]] eqn:Efs;
      cbn -[pretty Nat.eqb String.eqb]; rewrite ?Hrows;
      cbn -[pretty Nat.eqb String.eqb]; rewrite ?Hne;
      repeat (progress (rewrite ?Efs, ?Hnz; cbn -[pretty Nat.eqb String.eqb]));
      accepted_only; reflexivity. }
  split; [exact Hupd|].
  unfold email_count, count_users_by_email in *. simpl in *.
  rewrite Hupd. unfold users_updated.
  pose proof (updated_email_count id (name data) (email data)
                (bcrypt ext (password data) 10 (entropy w)) (users w)) as Hle.
  assert (Hin : row0 ∈ filter (fun u => user_id u = id
                                        /\ user_email u <> email data)
                         (users w)).
  { assert (Hin0 : row0 ∈ filter (fun u => user_id u = id) (users w))
      by (rewrite Hrows; left).
    apply list_elem_of_filter in Hin0 as [Hid Hmem].
    apply list_elem_of_filter. tauto. }
  destruct (filter (fun u => user_id u = id /\ user_email u <> email data)
              (users w)) as [|x xs]; [inversion Hin|].
  simpl in Hle. lia.
Qed.



(** *** Validation of a user form, the other way round *)

(** The three constraints hold exactly when the form validates, and
    the validated data are the three texts as they were given: nothing
    is trimmed or changed. *)
Theorem user_validation_accepts (v1 v2 v3 : Zod.raw) :
  name_ok v1 && email_ok (email_grammar ext) v2 && password_ok v3 = true
  <-> exists n e p,
        v1 = Some (Text n) /\ v2 = Some (Text e) /\ v3 = Some (Text p)
        /\ CreateUser ext v1 v2 v3 = Zod.Success (mk_UserData n e p)
        /\ UpdateUser ext v1 v2 v3 = Zod.Success (mk_UserData n e p).
Proof.
  split.
  - intros Hok. apply andb_true_iff in Hok as [Hok Hp].
    apply andb_true_iff in Hok as [Hn He].
    apply userSchema_name_ok, string_messages in Hn as [n Hn].
    apply userSchema_email_ok, string_messages in He as [e He].
    apply userSchema_password_ok, string_messages in Hp as [p Hp].
    exists n, e, p.
    change (userSchema_name v1 = inl n) in Hn.
    change (userSchema_email ext v2 = inl e) in He.
    change (userSchema_password v3 = inl p) in Hp.
    unfold UpdateUser, CreateUser, Zod.object3. rewrite Hn, He, Hp.
    repeat split; try reflexivity; eapply string_value; eassumption.
  - intros (n & e & p & _ & _ & _ & Hv & _).
    apply object3_success in Hv as (a & b & c & Hn & He & Hp & _).
    rewrite !andb_true_iff. repeat split.
    + apply userSchema_name_ok, string_messages. now exists a.
    + apply userSchema_email_ok, string_messages. now exists b.
    + apply userSchema_password_ok, string_messages. now exists c.
Qed.

(** *** [authenticate] *)

(** [authenticate] adds no effect of its own to those of [signIn], and
    a string it returns is one of its two messages. *)
Theorem authenticate_adds_nothing prevState formData w :
  (authenticate ext prevState formData w).2
  = (signIn ext "credentials" formData w).2
  /\ (forall text,
        (authenticate ext prevState formData w).1 = Returned (Some text) ->
        text = "Invalid credentials." \/ text = "Something went wrong.").
Proof.
  unfold authenticate. run.
  destruct (signIn ext "credentials" formData w) as [[[]|e] w1]; simpl.
  - split; [reflexivity | discriminate].
  - destruct e; simpl; try (split; [reflexivity | discriminate]).
    destruct (String.eqb type _); simpl;
      (split; [reflexivity | intros text [= <-]; auto]).
Qed.

(** *** Each handler keeps to its table *)


End MoreProperties.

(** *** The delete handlers *)

(** An accepted delete leaves no row of the id, keeps every other row,
    revalidates the listing and returns the confirmation. *)
Theorem delete_removes_the_id id w :
  accepted 0 w ->
  ((deleteUser id w).1 = Returned (Some (mk_State None (Some "Deleted User.")))
   /\ no_user id (deleteUser id w).2
   /\ (forall u, u ∈ users (deleteUser id w).2
                 <-> u ∈ users w /\ user_id u <> id)
   /\ revalidated (deleteUser id w).2 = revalidated w ++ ["/dashboard/users"])
  /\ ((deleteInvoice id w).1
      = Returned (Some (mk_State None (Some "Deleted Invoice.")))
      /\ no_invoice id (deleteInvoice id w).2
      /\ (forall r, r ∈ invoices (deleteInvoice id w).2
                    <-> r ∈ invoices w /\ invoice_id r <> id)
      /\ revalidated (deleteInvoice id w).2
         = revalidated w ++ ["/dashboard/invoices"]).
Proof.
  intros Hacc.
  assert (Hu : forall rows : list user_row,
             Forall (fun u => user_id u <> id)
                    (filter (fun u => user_id u <> id) rows)).
  { intros rows. apply Forall_forall. intros u Hin.
    apply list_elem_of_filter in Hin. tauto. }
  assert (Hi : forall rows : list invoice_row,
             Forall (fun r => invoice_id r <> id)
                    (filter (fun r => invoice_id r <> id) rows)).
  { intros rows. apply Forall_forall. intros r Hin.
    apply list_elem_of_filter in Hin. tauto. }
  unfold deleteUser, deleteInvoice, no_user, no_invoice. run.
  unfold delete_user, delete_invoice.
  destruct (store_faults w) as [|[m0|] rest] eqn:Efs; simpl; accepted_only;
    (split; (split; [reflexivity|]); (split; [auto|]);
     (split; [|reflexivity]); intros x; rewrite list_elem_of_filter; tauto).
Qed.

(** Deleting the same id a second time returns the confirmation again
    and leaves the table as the first delete left it. *)
Theorem delete_twice id w :
  accepted 0 w -> accepted 1 w ->
  ((deleteUser id (deleteUser id w).2).1
   = Returned (Some (mk_State None (Some "Deleted User.")))
   /\ users (deleteUser id (deleteUser id w).2).2 = users (deleteUser id w).2)
  /\ ((deleteInvoice id (deleteInvoice id w).2).1
      = Returned (Some (mk_State None (Some "Deleted Invoice.")))
      /\ invoices (deleteInvoice id (deleteInvoice id w).2).2
         = invoices (deleteInvoice id w).2).
Proof.
  intros H0 H1.
  assert (Hu : forall rows : list user_row,
             filter (fun u => user_id u <> id)
                    (filter (fun u => user_id u <> id) rows)
             = filter (fun u => user_id u <> id) rows).
  { intros rows. apply filter_all, Forall_forall. intros u Hin.
    apply list_elem_of_filter in Hin. tauto. }
  assert (Hi : forall rows : list invoice_row,
             filter (fun r => invoice_id r <> id)
                    (filter (fun r => invoice_id r <> id) rows)
             = filter (fun r => invoice_id r <> id) rows).
  { intros rows. apply filter_all, Forall_forall. intros r Hin.
    apply list_elem_of_filter in Hin. tauto. }
  unfold deleteUser, deleteInvoice. run. unfold delete_user, delete_invoice.
  destruct (store_faults w) as [|[m0|] [|[m1|] rest]] eqn:Efs; simpl;
    rewrite ?Efs; simpl; accepted_only;
    (split; (split; [reflexivity | auto])).
Qed.

(** A rejected delete changes no table and revalidates nothing;
    [deleteUser] prints the error it got, [deleteInvoice] prints
    nothing. *)
Theorem delete_rejected_changes_nothing id w message :
  store_faults w !! 0 = Some (Some message) ->
  (users (deleteUser id w).2 = users w
   /\ revalidated (deleteUser id w).2 = revalidated w
   /\ console (deleteUser id w).2
      = console w ++ [console_error [PText "Failed to delete user:";
                                     PError (DatabaseError message)]])
  /\ (invoices (deleteInvoice id w).2 = invoices w
      /\ revalidated (deleteInvoice id w).2 = revalidated w
      /\ console (deleteInvoice id w).2 = console w).
Proof.
  intros Hrej. unfold deleteUser, deleteInvoice. run.
  destruct (store_faults w) as [|[m0|] rest] eqn:Efs; simpl in *;
    try discriminate.
  injection Hrej as ->. repeat split; reflexivity.
Qed.

(** *** The invoice handlers *)

Lemma update_absent_invoice id customer cents st (rows : list invoice_row) :
  Forall (fun r => invoice_id r <> id) rows ->
  map (fun r => if decide (invoice_id r = id)
                then mk_invoice id customer cents st (invoice_date r)
                else r) rows
  = rows.
Proof.
  induction 1 as [|r rows Hr _ IH]; [reflexivity|].
  simpl. rewrite IH. now destruct (decide (invoice_id r = id)).
Qed.

(** [updateInvoice] with an id that no row carries, on a valid form
    and the statement being accepted: no row changes, and the caller
    is redirected after the listing was revalidated, as after an update
    that found its row. *)
Theorem updateInvoice_absent_id_is_silent id prevState formData data w :
  UpdateInvoice (get formData "customerId") (get formData "amount")
                (get formData "status") = Zod.Success data ->
  accepted 0 w ->
  no_invoice id w ->
  let r := updateInvoice id prevState formData w in
  r.1 = Thrown (NEXT_REDIRECT "/dashboard/invoices")
  /\ invoices r.2 = invoices w
  /\ revalidated r.2 = revalidated w ++ ["/dashboard/invoices"].
Proof.
  intros Hv Hacc Hno r. subst r. unfold updateInvoice. rewrite Hv. run.
  unfold update_invoice, no_invoice in *.
  destruct (store_faults w) as [|[m0|] rest] eqn:Efs; simpl; accepted_only;
    (split; [reflexivity|]); (split; [|reflexivity]);
    now apply update_absent_invoice.
Qed.

(** No run of [updateInvoice] adds or removes a row of [invoices] or
    changes the id or the date of one. *)
Theorem updateInvoice_keeps_ids_and_dates id prevState formData w :
  map invoice_id (invoices (updateInvoice id prevState formData w).2)
  = map invoice_id (invoices w)
  /\ map invoice_date (invoices (updateInvoice id prevState formData w).2)
     = map invoice_date (invoices w).
Proof.
  unfold updateInvoice.
  destruct (UpdateInvoice _ _ _) as [data|error]; [|split; reflexivity]. run.
  unfold update_invoice.
  destruct (store_faults w) as [|[m0|] rest] eqn:Efs; simpl;
    try (split; reflexivity);
    (split; rewrite map_map; apply map_ext; intros r;
     now destruct (decide (invoice_id r = id))).
Qed.

(** Updating an invoice twice with the same form gives the table that
    updating it once gives. *)
Theorem updateInvoice_twice id prevState prevState' formData data w :
  UpdateInvoice (get formData "customerId") (get formData "amount")
                (get formData "status") = Zod.Success data ->
  accepted 0 w -> accepted 1 w ->
  invoices (updateInvoice id prevState' formData
              (updateInvoice id prevState formData w).2).2
  = invoices (updateInvoice id prevState formData w).2.
Proof.
  intros Hv H0 H1. unfold updateInvoice. rewrite Hv. run.
  unfold update_invoice.
  destruct (store_faults w) as [|[m0|] [|[m1|] rest]] eqn:Efs; simpl;
    rewrite ?Efs; simpl; accepted_only;
    (rewrite map_map; apply map_ext; intros r;
     destruct (decide (invoice_id r = id)) as [Hid|Hid]; simpl;
     [destruct (decide (id = id)); [reflexivity | contradiction]
     | destruct (decide (invoice_id r = id)); [contradiction | reflexivity]]).
Qed.

(** In every run, [createInvoice] and [updateInvoice] either redirect
    the caller after revalidating the listing, or return a state with a
    message, with no table changed and nothing revalidated; and
    [deleteInvoice] always returns a state.  No invoice handler rejects
    its promise with an error. *)
Theorem invoice_handlers_never_throw_errors id prevState formData w :
  let outcome_of (r : outcome (option State) * world) :=
    (r.1 = Thrown (NEXT_REDIRECT "/dashboard/invoices")
     /\ revalidated r.2 = revalidated w ++ ["/dashboard/invoices"])
    \/ (exists errs text, r.1 = Returned (Some (mk_State errs (Some text)))
                          /\ invoices r.2 = invoices w
                          /\ revalidated r.2 = revalidated w) in
  outcome_of (createInvoice prevState formData w)
  /\ outcome_of (updateInvoice id prevState formData w)
  /\ exists text,
       (deleteInvoice id w).1 = Returned (Some (mk_State None (Some text))).
Proof.
  intros outcome_of. subst outcome_of. cbv beta. repeat split.
  - unfold createInvoice.
    destruct (CreateInvoice _ _ _) as [data|error]; run.
    + cbn -[pretty].
      destruct (store_faults w) as [|[m0|] rest] eqn:Efs; cbn -[pretty];
        [left; split; reflexivity | right; eauto | left; split; reflexivity].
    + right. simpl. eauto.
  - unfold updateInvoice.
    destruct (UpdateInvoice _ _ _) as [data|error]; run.
    + cbn -[pretty].
      destruct (store_faults w) as [|[m0|] rest] eqn:Efs; cbn -[pretty];
        [left; split; reflexivity | right; eauto | left; split; reflexivity].
    + right. simpl. eauto.
  - unfold deleteInvoice. run.
    destruct (store_faults w) as [|[m0|] rest]; simpl; eauto.
Qed.

(** *** Validation of an invoice form, in full *)

(** An invoice form validates exactly when the customer is a text (an
    empty one will do), the amount read as a number is greater than 0,
    and the status is the text [pending] or [paid]; the validated data
    are the customer and status as given and the amount as read. *)
Theorem invoice_validation_accepts (v1 v2 v3 : Zod.raw) (data : InvoiceData) :
  CreateInvoice v1 v2 v3 = Zod.Success data
  <-> v1 = Some (Text (customerId data))
      /\ amount data = Zod.Number v2
      /\ Num.gt (Zod.Number v2) (Num.of_Z 0) = true
      /\ v3 = Some (Text (status data))
      /\ (status data = "pending" \/ status data = "paid").
Proof.
  split.
  - intros Hv. destruct (CreateInvoice_data _ _ _ _ Hv) as (H1 & H2 & H3).
    apply object3_success in Hv as (a & b & c & _ & Hb & Hc & ->).
    simpl in *. repeat split; try assumption.
    + unfold FormSchema_amount, Zod.coerce_number_gt in Hb.
      destruct (Zod.Number v2); try discriminate;
        destruct (Num.gt _ _); congruence.
    + subst v3. unfold FormSchema_status, Zod.enum in Hc. cbn [existsb] in Hc.
      destruct (String.eqb_spec c "pending") as [->|_]; [now left|].
      destruct (String.eqb_spec c "paid") as [->|_]; [now right|].
      discriminate.
  - destruct data as [c a st]. cbn [customerId amount status].
    intros (-> & -> & Hgt & -> & Hst).
    unfold CreateInvoice, Zod.object3.
    rewrite (FormSchema_status_valid _ Hst).
    unfold FormSchema_amount, Zod.coerce_number_gt. rewrite Hgt.
    destruct (Zod.Number v2); try reflexivity. discriminate Hgt.
Qed.

(** [createInvoice] and [updateInvoice] on a form that has none of the
    three fields: one message for each field, the amount being read as
    0 and found too small; nothing else happens. *)
Theorem invoice_form_without_fields id prevState formData w :
  get formData "customerId" = None ->
  get formData "amount" = None ->
  get formData "status" = None ->
  exists errs : gmap string (list string),
    createInvoice prevState formData w
    = (Returned (Some (mk_State (Some errs)
                         (Some "Missing Fields. Failed to Create Invoice."))), w)
    /\ updateInvoice id prevState formData w
       = (Returned (Some (mk_State (Some errs)
                            (Some "Missing Fields. Failed to Update Invoice."))),
          w)
    /\ errs !! "customerId" = Some ["Please select a customer."]
    /\ errs !! "amount" = Some ["Please enter an amount greater than $0."]
    /\ errs !! "status" = Some ["Please select an invoice status."].
Proof.
  intros Hc Ha Hs. unfold createInvoice, updateInvoice. rewrite Hc, Ha, Hs.
  eexists. split; [reflexivity|]. split; [reflexivity|].
  repeat split; vm_compute; reflexivity.
Qed.

(** *** The messages of a name *)

(** The message that the name cannot be empty is given for the empty
    text only, and then after the message about its length; a form
    without the field gets neither of them but the library's message
    about the type. *)
Theorem name_cannot_be_empty_message (v : Zod.raw) :
  ("Name cannot be empty" ∈ messages_of (userSchema_name v)
   <-> v = Some (Text ""))
  /\ (v = Some (Text "") ->
      messages_of (userSchema_name v)
      = ["Name must be at least 5 characters long"; "Name cannot be empty"])
  /\ (v = None ->
      messages_of (userSchema_name v) = ["Expected string, received null"]).
Proof.
  split; [|split].
  - destruct v as [[s|f]|].
    + cbn -[Nat.leb Nat.ltb String.length String.eqb].
      unfold Zod.nonempty, Zod.min. rewrite nonempty_length.
      destruct (String.eqb_spec s "") as [->|Hne].
      * split; [reflexivity|]. intros _. vm_compute. right. left.
      * destruct (String.length s <? 5)%nat; simpl; split;
          try congruence; intros Hin;
          repeat match goal with
                 | H : _ ∈ _ :: _ |- _ => apply elem_of_cons in H as [H|H]
                 | H : _ ∈ [] |- _ => inversion H
                 end; discriminate.
    + simpl. split; [|discriminate]. intros Hin.
      apply elem_of_cons in Hin as [Hin|Hin]; [discriminate | inversion Hin].
    + simpl. split; [|discriminate]. intros Hin.
      apply elem_of_cons in Hin as [Hin|Hin]; [discriminate | inversion Hin].
  - intros ->. reflexivity.
  - intros ->. reflexivity.
Qed.

(** *** The date of a new invoice *)

Lemma before_T_prefix (d rest : string) :
  Forall (fun c => c <> "T"%char) (list_ascii_of_string d) ->
  before_T (d +:+ String "T" rest) = d.
Proof.
  induction d as [|c d IH]; simpl; intros H.
  - reflexivity.
  - inversion H as [|? ? Hc Hd]; subst.
    destruct (Ascii.eqb_spec c "T"); [contradiction|]. now rewrite IH.
Qed.

(** The date of the row that [createInvoice] adds is the part of the
    clock's text before its [T], whatever the form says about a
    date. *)
Theorem createInvoice_dates_by_the_clock prevState formData data w d rest :
  CreateInvoice (get formData "customerId") (get formData "amount")
                (get formData "status") = Zod.Success data ->
  accepted 0 w ->
  clock w = d +:+ String "T" rest ->
  Forall (fun c => c <> "T"%char) (list_ascii_of_string d) ->
  exists row,
    invoices (createInvoice prevState formData w).2 = invoices w ++ [row]
    /\ invoice_date row = d.
Proof.
  intros Hv Hacc Hclock Hd. unfold createInvoice. rewrite Hv. run.
  unfold insert_invoice, today. cbn -[pretty].
  destruct (store_faults w) as [|[m0|] rest'] eqn:Efs; cbn -[pretty];
    accepted_only; eexists; (split; [reflexivity|]); simpl;
    rewrite Hclock; now apply before_T_prefix.
Qed.

(** *** What amounts reach the store *)

Lemma shr_1_not_negative (mrs : shr_record) :
  (0 <= shr_m mrs)%Z -> (0 <= shr_m (shr_1 mrs))%Z.
Proof.
  destruct mrs as [m r st]. simpl.
  destruct m as [|p|p]; [reflexivity | | lia].
  intros _. destruct p; simpl; lia.
Qed.

Lemma iter_pos_invariant {A} (P : A -> Prop) (f : A -> A) :
  (forall x, P x -> P (f x)) ->
  forall (p : positive) (x : A), P x -> P (SpecFloat.iter_pos f p x).
Proof.
  intros Hf. induction p as [p IH|p IH|]; intros x Hx; simpl; auto.
Qed.

Lemma shr_fexp_not_negative (m e : Z) (l : location) :
  (0 <= m)%Z -> (0 <= shr_m (shr_fexp Num.prec Num.emax m e l).1)%Z.
Proof.
  intros Hm. unfold shr_fexp, shr.
  assert (H0 : (0 <= shr_m (shr_record_of_loc m l))%Z)
    by (destruct l as [|[]]; exact Hm).
  destruct (_ - e)%Z as [|p|p]; simpl; try exact H0.
  apply (iter_pos_invariant (fun mrs => (0 <= shr_m mrs)%Z));
    [exact shr_1_not_negative | exact H0].
Qed.

Lemma round_nearest_even_not_negative (m : Z) (l : location) :
  (0 <= m)%Z -> (0 <= round_nearest_even m l)%Z.
Proof.
  intros Hm. unfold round_nearest_even.
  destruct l as [|[]]; try destruct (Z.even m); lia.
Qed.

Lemma binary_round_aux_not_negative (m e : Z) (l : location) :
  (0 <= m)%Z ->
  not_negative (binary_round_aux Num.prec Num.emax false m e l) = true.
Proof.
  intros Hm. unfold binary_round_aux.
  pose proof (shr_fexp_not_negative m e l Hm) as H1.
  destruct (shr_fexp Num.prec Num.emax m e l) as [mrs' e'].
  pose proof (shr_fexp_not_negative
                (round_nearest_even (shr_m mrs') (loc_of_shr_record mrs'))
                e' loc_Exact
                (round_nearest_even_not_negative _ _ H1)) as H2.
  destruct (shr_fexp Num.prec Num.emax _ e' loc_Exact) as [mrs'' e''].
  simpl in H2. destruct (shr_m mrs'') as [|p|p]; [reflexivity | | lia].
  now destruct (_ <=? _)%Z.
Qed.

Lemma cents_not_negative (x : Num.number) :
  Num.gt x (Num.of_Z 0) = true ->
  not_negative (Num.mul x (Num.of_Z 100)) = true.
Proof.
  intros Hgt.
  assert (H100 : exists m e, Num.of_Z 100 = S754_finite false m e)
    by (eexists; eexists; vm_compute; reflexivity).
  destruct H100 as (m100 & e100 & H100). rewrite H100.
  destruct x as [[]|[]| |[] m e]; try discriminate Hgt; try reflexivity.
  unfold Num.mul, SFmul. apply binary_round_aux_not_negative. lia.
Qed.

(** The amount of a row that [createInvoice] adds is never NaN and
    never negative: the form's amount was greater than 0 and so is not
    NaN, and its product with 100 keeps the sign. *)
Theorem createInvoice_amount_not_negative prevState formData w row :
  invoices (createInvoice prevState formData w).2 = invoices w ++ [row] ->
  not_negative (invoice_amount row) = true.
Proof.
  unfold createInvoice.
  destruct (CreateInvoice _ _ _) as [data|error] eqn:Hv; run.
  - apply invoice_validation_accepts in Hv as (_ & Ha & Hgt & _).
    rewrite <- Ha in Hgt. unfold insert_invoice. cbn -[pretty Num.mul].
    destruct (store_faults w) as [|[m0|] rest] eqn:Efs; cbn -[pretty Num.mul];
      intros Hrows.
    + apply app_inv_head in Hrows. injection Hrows as <-.
      now apply cents_not_negative.
    + apply (f_equal length) in Hrows. rewrite length_app in Hrows.
      simpl in Hrows. lia.
    + apply app_inv_head in Hrows. injection Hrows as <-.
      now apply cents_not_negative.
  - simpl. intros Hrows. apply (f_equal length) in Hrows.
    rewrite length_app in Hrows. simpl in Hrows. lia.
Qed.

(** ** The further theorems at work on the samples *)

Ltac sample_hypothesis :=
  first [ reflexivity
        | intros ? H; discriminate H
        | repeat constructor; discriminate
        | vm_compute; lia
        | discriminate ].


Lemma createUser_twice_witness :
  (createUser demo a_state (user_form "Bobby" "bob@example.com" "secret1")
     (createUser demo a_state (user_form "Bobby" "bob@example.com" "secret1")
                 sample_world).2).1
  = Thrown (Error "Failed to create user.").
Proof.
  refine (proj1 (createUser_twice demo a_state a_state
                   (user_form "Bobby" "bob@example.com" "secret1")
                   (mk_UserData "Bobby" "bob@example.com" "secret1")
                   sample_world _ _));
    sample_hypothesis.
Defined.


Lemma createUser_then_deleteUser_witness :
  users (deleteUser "2"
           (createUser demo a_state
              (user_form "Bobby" "bob@example.com" "secret1") sample_world).2).2
  = users sample_world.
Proof.
  refine (proj2 (createUser_then_deleteUser demo a_state
                   (user_form "Bobby" "bob@example.com" "secret1")
                   (mk_UserData "Bobby" "bob@example.com" "secret1")
                   sample_world _ _ _ _ _ _));
    sample_hypothesis.
Defined.

Lemma updateUser_success_witness :
  users (updateUser demo "u1" a_state
           (user_form "Alice Roe" "alice@example.com" "secret1")
           sample_world).2
  = [mk_user "u1" "Alice Roe" "alice@example.com" (demo_bcrypt "secret1" 10 1)].
Proof.
  refine (proj1 (proj2 (updateUser_success demo "u1" a_state
                          (user_form "Alice Roe" "alice@example.com" "secret1")
                          (mk_UserData "Alice Roe" "alice@example.com" "secret1")
                          (mk_user "u1" "Alice Doe" "alice@example.com"
                                   "$2b$10$0$terces")
                          sample_world _ _ _ _ _)));
    sample_hypothesis.
Defined.

Lemma updateUser_taken_email_goes_through_witness :
  (2 <= email_count "bob@example.com"
          (updateUser demo "u1" a_state
             (user_form "Alice Doe" "bob@example.com" "secret1")
             two_users_world).2)%nat.
Proof.
  refine (proj2 (updateUser_taken_email_goes_through demo "u1" a_state
                   (user_form "Alice Doe" "bob@example.com" "secret1")
                   (mk_UserData "Alice Doe" "bob@example.com" "secret1")
                   (mk_user "u1" "Alice Doe" "alice@example.com" "h1")
                   two_users_world _ _ _ _ _ _ _));
    sample_hypothesis.
Defined.


Lemma delete_removes_the_id_witness :
  no_user "u1" (deleteUser "u1" sample_world).2
  /\ no_invoice "i1" (deleteInvoice "i1" sample_world).2.
Proof.
  split.
  - refine (proj1 (proj2 (proj1 (delete_removes_the_id "u1" sample_world _))));
      sample_hypothesis.
  - refine (proj1 (proj2 (proj2 (delete_removes_the_id "i1" sample_world _))));
      sample_hypothesis.
Defined.

Lemma delete_twice_witness :
  users (deleteUser "u1" (deleteUser "u1" sample_world).2).2
  = users (deleteUser "u1" sample_world).2.
Proof.
  refine (proj2 (proj1 (delete_twice "u1" sample_world _ _)));
    sample_hypothesis.
Defined.

Lemma delete_rejected_changes_nothing_witness :
  users (deleteUser "u1" failing_world).2 = users failing_world
  /\ invoices (deleteInvoice "i1" failing_world).2 = invoices failing_world.
Proof.
  split.
  - refine (proj1 (proj1 (delete_rejected_changes_nothing
                            "u1" failing_world "connection refused" _)));
      sample_hypothesis.
  - refine (proj1 (proj2 (delete_rejected_changes_nothing
                            "i1" failing_world "connection refused" _)));
      sample_hypothesis.
Defined.

Lemma updateInvoice_absent_id_is_silent_witness :
  (updateInvoice "i9" a_state (invoice_form "c1" "20" "paid") sample_world).1
  = Thrown (NEXT_REDIRECT "/dashboard/invoices")
  /\ invoices (updateInvoice "i9" a_state (invoice_form "c1" "20" "paid")
                             sample_world).2
     = invoices sample_world.
Proof.
  assert (Hv : UpdateInvoice (Some (Text "c1")) (Some (Text "20"))
                 (Some (Text "paid"))
               = Zod.Success (mk_InvoiceData "c1" (Num.of_string "20") "paid"))
    by (vm_compute; reflexivity).
  pose proof (updateInvoice_absent_id_is_silent "i9" a_state
                (invoice_form "c1" "20" "paid") _ sample_world Hv) as H.
  destruct H as (H1 & H2 & _).
  - intros message H; discriminate H.
  - repeat constructor; discriminate.
  - split; assumption.
Defined.

Lemma updateInvoice_twice_witness :
  invoices (updateInvoice "i1" a_state (invoice_form "c2" "20" "pending")
              (updateInvoice "i1" a_state (invoice_form "c2" "20" "pending")
                             sample_world).2).2
  = invoices (updateInvoice "i1" a_state (invoice_form "c2" "20" "pending")
                            sample_world).2.
Proof.
  assert (Hv : UpdateInvoice (Some (Text "c2")) (Some (Text "20"))
                 (Some (Text "pending"))
               = Zod.Success (mk_InvoiceData "c2" (Num.of_string "20") "pending"))
    by (vm_compute; reflexivity).
  refine (updateInvoice_twice "i1" a_state a_state
            (invoice_form "c2" "20" "pending") _ sample_world Hv _ _);
    sample_hypothesis.
Defined.

Lemma invoice_form_without_fields_witness :
  exists errs : gmap string (list string),
    createInvoice a_state [] sample_world
    = (Returned (Some (mk_State (Some errs)
                         (Some "Missing Fields. Failed to Create Invoice."))),
       sample_world)
    /\ errs !! "amount" = Some ["Please enter an amount greater than $0."].
Proof.
  destruct (invoice_form_without_fields "i1" a_state [] sample_world
              eq_refl eq_refl eq_refl) as (errs & Hc & _ & _ & Ha & _).
  exists errs. split; assumption.
Defined.

Lemma createInvoice_dates_by_the_clock_witness :
  exists row,
    invoices (createInvoice a_state (invoice_form "c1" "20" "paid")
                            sample_world).2
    = invoices sample_world ++ [row]
    /\ invoice_date row = "2024-05-01".
Proof.
  assert (Hv : CreateInvoice (Some (Text "c1")) (Some (Text "20"))
                 (Some (Text "paid"))
               = Zod.Success (mk_InvoiceData "c1" (Num.of_string "20") "paid"))
    by (vm_compute; reflexivity).
  refine (createInvoice_dates_by_the_clock a_state
            (invoice_form "c1" "20" "paid") _ sample_world
            "2024-05-01" "10:00:00.000Z" Hv _ _ _).
  - intros message H; discriminate H.
  - reflexivity.
  - repeat constructor; discriminate.
Defined.

Lemma createInvoice_amount_not_negative_witness :
  not_negative (Num.mul (Num.of_string "20") (Num.of_Z 100)) = true.
Proof.
  refine (createInvoice_amount_not_negative a_state
            (invoice_form "c1" "20" "paid") sample_world
            (mk_invoice "2" "c1" (Num.mul (Num.of_string "20") (Num.of_Z 100))
                        "paid" "2024-05-01") _).
  vm_compute. reflexivity.
Defined.

Lemma createUser_store_failure_witness :
  (createUser demo a_state (user_form "Bobby" "bob@example.com" "secret1")
              failing_world).1
  = Thrown (Error "Failed to create user.").
Proof.
  refine (createUser_store_failure demo a_state
            (user_form "Bobby" "bob@example.com" "secret1")
            (mk_UserData "Bobby" "bob@example.com" "secret1")
            failing_world _ _).
  - reflexivity.
  - left. exists "connection refused". reflexivity.
Defined.

Lemma store_failure_elsewhere_witness :
  (deleteUser "u1" failing_world).1 = Thrown (Error "Failed to delete user.")
  /\ (deleteInvoice "i1" failing_world).1
     = Returned (Some (mk_State None
                         (Some "Database Error: Failed to Delete Invoice."))).
Proof.
  assert (Hrej : rejected 0 failing_world)
    by (exists "connection refused"; reflexivity).
  split.
  - exact (proj1 (store_failure_elsewhere "u1" a_state []
                    (mk_InvoiceData "c1" (Num.of_Z 1) "paid")
                    failing_world Hrej)).
  - exact (proj1 (proj2 (store_failure_elsewhere "i1" a_state []
                           (mk_InvoiceData "c1" (Num.of_Z 1) "paid")
                           failing_world Hrej))).
Defined.
